(** * server.js: the books API and the news proxy

    A shallow embedding of [server.js]: the five Express route handlers, the
    Mongoose model [Book] they call, the module-level configuration, and the
    JavaScript values and built-ins the handlers rely on.

    - [Js]          JavaScript values, [ToBoolean], [ToString], property
                    reads, [JSON.stringify], completions (normal or throw).
    - [Url]         how a receiver reads the query of a URL.
    - [Mongoose]    the [books] collection, the schema casts, the model calls.
    - [Server]      the handlers of [server.js], in source order.
    - [Properties]  the predicates the theorems are stated with.
    - [Sample]      concrete requests, stores and upstream answers.

    Numbers are IEEE 754 doubles ([spec_float]).  The collection is a finite
    map from [_id] to the four schema fields.  Express, Mongoose and [fetch]
    are the environment: a handler is a function of the request, of the
    world it runs against and, for the news route, of what the network
    answers. *)

From Stdlib Require Import SpecFloat Ascii String.
From stdpp Require Import gmap strings list pretty.

Open Scope string_scope.
Set Warnings "-register-all".

(** ** JavaScript values and built-ins *)
Module Js.

(** A value as [JSON.parse] or the query parser produces it.  The properties
    of an object are kept in the order [OrdinaryOwnPropertyKeys] lists them;
    their names are distinct, and a property read takes the first binding
    of a name. *)
Inductive JsValue : Type :=
| JsUndefined
| JsNull
| JsBool (b : bool)
| JsNumber (n : spec_float)
| JsString (s : string)
| JsArray (elems : list JsValue)
| JsObject (props : list (string * JsValue)).

(** The errors a [catch] clause of the handlers can receive. *)
Inductive Exn : Type :=
| TypeError          (* reading a property of undefined or null, calling a non-function *)
| SyntaxError        (* response.json() on a body that is not JSON *)
| FetchFailed        (* fetch() rejected: DNS, connection, invalid URL *)
| CastError          (* Mongoose could not cast a value to the schema type *)
| ValidationError    (* Mongoose validation failed on save *)
| MongoError.        (* the driver failed: not connected, duplicate key *)

(** A completion record: the value of an expression, or a throw (for an
    awaited promise: fulfilled or rejected). *)
Inductive Completion (A : Type) : Type :=
| Normal (a : A)
| Throw (e : Exn).
Arguments Normal {A} a.
Arguments Throw {A} e.

Definition bind {A B : Type} (c : Completion A) (k : A -> Completion B) : Completion B :=
  match c with
  | Normal a => k a
  | Throw e => Throw e
  end.

(** [try { c } catch (error) { h error }] *)
Definition try_catch {A : Type} (c : Completion A) (h : Exn -> Completion A) : Completion A :=
  match c with
  | Normal a => Normal a
  | Throw e => h e
  end.

(** What the model leaves to the JavaScript engine: the conversions between
    numbers and text outside the fragment computed below (integers of
    magnitude under 2^53). *)
Class Engine : Type := {
  engine_Number_toString : spec_float -> string;
  engine_StringToNumber : string -> spec_float
}.

(** ToBoolean *)
Definition truthy (v : JsValue) : bool :=
  match v with
  | JsUndefined | JsNull => false
  | JsBool b => b
  | JsNumber (S754_zero _) | JsNumber S754_nan => false
  | JsNumber _ => true
  | JsString EmptyString => false
  | JsString _ => true
  | JsArray _ | JsObject _ => true
  end.

Definition nullish (v : JsValue) : bool :=
  match v with
  | JsUndefined | JsNull => true
  | _ => false
  end.

(** The first binding of [k] in a property list; [undefined] when there is none. *)
Fixpoint prop (props : list (string * JsValue)) (k : string) : JsValue :=
  match props with
  | [] => JsUndefined
  | (k', v) :: rest => if String.eqb k' k then v else prop rest k
  end.

(** [v.k] for the property names the handlers read ([articles],
    [totalResults], [title], [description], [source], [name], [url],
    [publishedAt], and [author], [year], [genre] of a request body): no
    built-in prototype defines any of them, so only an
    object's own properties answer, and a boolean, number, string or array
    gives undefined; reading from undefined or null throws. *)
Definition Get (v : JsValue) (k : string) : Completion JsValue :=
  match v with
  | JsUndefined | JsNull => Throw TypeError
  | JsObject props => Normal (prop props k)
  | _ => Normal JsUndefined
  end.

(** The double with the value of the integer [z], for [|z| < 2^53]. *)
Definition number_of_Z (z : Z) : spec_float := binary_normalize 53 1024 z 0 false.

(** The integer a double stands for, when it is one of magnitude under 2^53. *)
Definition small_integer (n : spec_float) : option Z :=
  match n with
  | S754_zero _ => Some 0%Z
  | S754_finite s m e =>
      let signed (v : Z) := if s then (- v)%Z else v in
      if (0 <=? e)%Z then
        let v := (Z.pos m * 2 ^ e)%Z in
        if (v <? 2 ^ 53)%Z then Some (signed v) else None
      else
        let d := (2 ^ (- e))%Z in
        if (Z.modulo (Z.pos m) d =? 0)%Z && (Z.div (Z.pos m) d <? 2 ^ 53)%Z
        then Some (signed (Z.div (Z.pos m) d)) else None
  | _ => None
  end.

Definition is_digit (c : ascii) : bool :=
  let n := N_of_ascii c in (48 <=? n)%N && (n <=? 57)%N.

(** The value of a text made of decimal digits only. *)
Fixpoint digits_value (acc : N) (s : string) : option N :=
  match s with
  | EmptyString => Some acc
  | String c rest =>
      if is_digit c then digits_value (acc * 10 + (N_of_ascii c - 48)) rest else None
  end.

Section WithEngine.
Context {engine : Engine}.

(** Number::toString(x), radix 10. *)
Definition Number_toString (n : spec_float) : string :=
  match n with
  | S754_nan => "NaN"
  | S754_infinity false => "Infinity"
  | S754_infinity true => "-Infinity"
  | _ =>
      match small_integer n with
      | Some z => pretty z
      | None => engine_Number_toString n
      end
  end.

(** StringToNumber(str): computed on a non-empty run of decimal digits whose
    value is under 2^53. *)
Definition StringToNumber (s : string) : spec_float :=
  match s with
  | EmptyString => S754_zero false
  | _ =>
      match digits_value 0 s with
      | Some v => if (v <? 2 ^ 53)%N then number_of_Z (Z.of_N v) else engine_StringToNumber s
      | None => engine_StringToNumber s
      end
  end.

(** ToString, as a template literal applies it to an interpolated value.
    An array joins its elements with commas (undefined and null elements
    giving the empty text); a plain object gives [[object Object]]. *)
Fixpoint ToString (v : JsValue) : string :=
  match v with
  | JsUndefined => "undefined"
  | JsNull => "null"
  | JsBool true => "true"
  | JsBool false => "false"
  | JsNumber n => Number_toString n
  | JsString s => s
  | JsArray elems =>
      String.concat ","
        (List.map (fun e => if nullish e then EmptyString else ToString e) elems)
  | JsObject _ => "[object Object]"
  end.

(** *** JSON.stringify(value, null, space) *)

Definition quote_mark : string := String (ascii_of_nat 34) EmptyString.
Definition line_feed : string := String (ascii_of_nat 10) EmptyString.

Definition hex_digit (n : N) : ascii :=
  ascii_of_N (if (n <? 10)%N then 48 + n else 87 + n).

(** One code unit inside QuoteJSONString. *)
Definition quote_char (c : ascii) : string :=
  let n := N_of_ascii c in
  if (n =? 8)%N then "\b"
  else if (n =? 9)%N then "\t"
  else if (n =? 10)%N then "\n"
  else if (n =? 12)%N then "\f"
  else if (n =? 13)%N then "\r"
  else if (n =? 34)%N then "\" +:+ quote_mark
  else if (n =? 92)%N then "\\"
  else if (n <? 32)%N then
    "\u00" +:+ String (hex_digit (n / 16)) (String (hex_digit (n mod 16)) EmptyString)
  else String c EmptyString.

Fixpoint quote_chars (s : string) : string :=
  match s with
  | EmptyString => EmptyString
  | String c rest => quote_char c +:+ quote_chars rest
  end.

Definition QuoteJSONString (s : string) : string :=
  quote_mark +:+ quote_chars s +:+ quote_mark.

Definition is_finite (n : spec_float) : bool :=
  match n with
  | S754_zero _ | S754_finite _ _ _ => true
  | _ => false
  end.

(** The bracketed form shared by SerializeJSONArray and SerializeJSONObject. *)
Definition wrap (open close gap stepback : string) (partial : list string) : string :=
  match partial with
  | [] => open +:+ close
  | _ =>
      match gap with
      | EmptyString => open +:+ String.concat "," partial +:+ close
      | _ =>
          let indent := stepback +:+ gap in
          open +:+ line_feed +:+ indent
            +:+ String.concat ("," +:+ line_feed +:+ indent) partial
            +:+ line_feed +:+ stepback +:+ close
      end
  end.

(** SerializeJSONProperty: [None] stands for undefined (the property is
    left out of an object and written [null] in an array). *)
Fixpoint SerializeJSONProperty (gap indent : string) (v : JsValue) : option string :=
  match v with
  | JsUndefined => None
  | JsNull => Some "null"
  | JsBool true => Some "true"
  | JsBool false => Some "false"
  | JsNumber n => Some (if is_finite n then Number_toString n else "null")
  | JsString s => Some (QuoteJSONString s)
  | JsArray elems =>
      Some (wrap "[" "]" gap indent
              (List.map
                 (fun e => match SerializeJSONProperty gap (indent +:+ gap) e with
                           | Some t => t
                           | None => "null"
                           end)
                 elems))
  | JsObject props =>
      Some (wrap "{" "}" gap indent
              (List.flat_map
                 (fun kv => match SerializeJSONProperty gap (indent +:+ gap) (snd kv) with
                            | Some t =>
                                [QuoteJSONString (fst kv) +:+ ":"
                                   +:+ match gap with EmptyString => EmptyString | _ => " " end
                                   +:+ t]
                            | None => []
                            end)
                 props))
  end.

Fixpoint spaces (n : nat) : string :=
  match n with
  | O => EmptyString
  | S n' => String " " (spaces n')
  end.

Definition JSON_stringify (v : JsValue) (space : nat) : JsValue :=
  match SerializeJSONProperty (spaces (Nat.min space 10)) EmptyString v with
  | Some t => JsString t
  | None => JsUndefined
  end.

(** [v.map(f)]: only an array has a callable [map]; the callback runs on the
    elements in order and the first throw ends the call. *)
Fixpoint map_elements (f : JsValue -> Completion JsValue) (elems : list JsValue)
  : Completion (list JsValue) :=
  match elems with
  | [] => Normal []
  | e :: rest =>
      bind (f e) (fun e' => bind (map_elements f rest) (fun rest' => Normal (e' :: rest')))
  end.

Definition Array_map (v : JsValue) (f : JsValue -> Completion JsValue)
  : Completion (list JsValue) :=
  match v with
  | JsArray elems => map_elements f elems
  | _ => Throw TypeError
  end.

End WithEngine.

End Js.

(** ** The query of a URL, as the receiving server reads it *)
Module Url.

Definition is_char (c a : ascii) : bool := Ascii.eqb a c.

(** The text before the first [c] (all of it when there is none). *)
Fixpoint before (c : ascii) (s : string) : string :=
  match s with
  | EmptyString => EmptyString
  | String a rest => if is_char c a then EmptyString else String a (before c rest)
  end.

(** The text after the first [c]. *)
Fixpoint after (c : ascii) (s : string) : option string :=
  match s with
  | EmptyString => None
  | String a rest => if is_char c a then Some rest else after c rest
  end.

Fixpoint split_on (c : ascii) (s : string) : list string :=
  match s with
  | EmptyString => [EmptyString]
  | String a rest =>
      if is_char c a then EmptyString :: split_on c rest
      else match split_on c rest with
           | piece :: pieces => String a piece :: pieces
           | [] => [String a EmptyString]
           end
  end.

Fixpoint contains (c : ascii) (s : string) : bool :=
  match s with
  | EmptyString => false
  | String a rest => is_char c a || contains c rest
  end.

(** The query: what follows the first [?], the fragment (from the first
    [#] on) being no part of the request. *)
Definition query (url : string) : string :=
  match after "?" (before "#" url) with
  | Some q => q
  | None => EmptyString
  end.

Definition name_value (piece : string) : string * string :=
  (before "=" piece, match after "=" piece with Some v => v | None => EmptyString end).

Definition non_empty (s : string) : bool :=
  match s with
  | EmptyString => false
  | _ => true
  end.

(** The name and value pairs of the query, in order, as written (no percent
    decoding): pieces between [&], empty pieces skipped, each cut at its
    first [=]. *)
Definition parse (q : string) : list (string * string) :=
  List.map name_value (List.filter non_empty (split_on "&" q)).

Definition searchParams (url : string) : list (string * string) :=
  parse (query url).

Definition param_names (url : string) : list string :=
  List.map fst (searchParams url).

End Url.

(** ** The Mongoose model [Book] and the collection behind it *)
Module Mongoose.
Import Js.

(** A 12-byte ObjectId, as the number its 24 hexadecimal digits write. *)
Definition ObjectId : Type := N.

(** [bookSchema]: title, author and genre are [String], year is [Number],
    all required. *)
Record Fields : Type := {
  title : string;
  author : string;
  year : spec_float;
  genre : string
}.

(** A document of the collection.  (The version key [__v], which no
    handler reads or writes, is left out.) *)
Record Book : Type := {
  _id : ObjectId;
  fields : Fields
}.

(** The calls made on the model, as the driver sees them. *)
Inductive ModelCall : Type :=
| Call_find
| Call_save (id : ObjectId)
| Call_findByIdAndUpdate (id : string)
| Call_findByIdAndDelete (id : string).

(** What a handler runs against: whether the driver reaches the database,
    the collection (one document per [_id]), the ObjectId the next
    [new Book] receives, and the model calls issued so far. *)
Record World : Type := {
  connected : bool;
  books : gmap ObjectId Fields;
  next_ObjectId : ObjectId;
  calls : list ModelCall
}.

(** The body of an async function: it runs against the world and completes
    normally or throws. *)
Definition Async (A : Type) : Type := World -> Completion A * World.

Definition ret {A : Type} (a : A) : Async A := fun w => (Normal a, w).

Definition await {A : Type} (c : Completion A) : Async A := fun w => (c, w).

Definition abind {A B : Type} (m : Async A) (k : A -> Async B) : Async B :=
  fun w =>
    match m w with
    | (Normal a, w') => k a w'
    | (Throw e, w') => (Throw e, w')
    end.

(** [try { m } catch (err) { h err }]: what [m] did to the world before it
    threw stays done. *)
Definition atry {A : Type} (m : Async A) (h : Exn -> Async A) : Async A :=
  fun w =>
    match m w with
    | (Normal a, w') => (Normal a, w')
    | (Throw e, w') => h e w'
    end.

Definition issue (c : ModelCall) (w : World) : World :=
  {| connected := connected w; books := books w;
     next_ObjectId := next_ObjectId w; calls := calls w ++ [c] |}.

Definition with_books (m : gmap ObjectId Fields) (w : World) : World :=
  {| connected := connected w; books := m;
     next_ObjectId := next_ObjectId w; calls := calls w |}.

Definition documents (m : gmap ObjectId Fields) : list Book :=
  List.map (fun kf => {| _id := fst kf; fields := snd kf |}) (map_to_list m).

(** *** Casting to the schema types

    The handlers pass truthy values only.  A string passes as it is; a
    number or boolean given for a [String] path is written out; a string or
    boolean given for a [Number] path is converted, and refused when the
    result is NaN.  Arrays are refused, and so are plain objects (Mongoose
    has special cases for some objects, such as one that carries a string
    [_id]; the statements below rest on the casts of strings, numbers and
    booleans only).  An undefined or null value (never passed by the
    handlers) fails as a missing required value does. *)

Definition hex_value (c : ascii) : option N :=
  let n := N_of_ascii c in
  if (48 <=? n)%N && (n <=? 57)%N then Some (n - 48)%N
  else if (97 <=? n)%N && (n <=? 102)%N then Some (n - 87)%N
  else if (65 <=? n)%N && (n <=? 70)%N then Some (n - 55)%N
  else None.

Fixpoint hex_number (acc : N) (s : string) : option N :=
  match s with
  | EmptyString => Some acc
  | String c rest =>
      match hex_value c with
      | Some d => hex_number (acc * 16 + d) rest
      | None => None
      end
  end.

(** A route parameter names an ObjectId when it is 24 hexadecimal digits,
    in either case; any other text is a cast error.  (Drivers before BSON 5
    also took any text of 12 characters; no statement below is about such
    an id.) *)
Definition castObjectId (id : string) : Completion ObjectId :=
  if Nat.eqb (String.length id) 24 then
    match hex_number 0 id with
    | Some n => Normal n
    | None => Throw CastError
    end
  else Throw CastError.

Section WithEngine.
Context {engine : Engine}.

Definition castString (v : JsValue) : Completion string :=
  match v with
  | JsString s => Normal s
  | JsNumber n => Normal (Number_toString n)
  | JsBool true => Normal "true"
  | JsBool false => Normal "false"
  | JsArray _ | JsObject _ => Throw CastError
  | JsUndefined | JsNull => Throw ValidationError
  end.

Definition refuse_NaN (n : spec_float) : Completion spec_float :=
  match n with
  | S754_nan => Throw CastError
  | _ => Normal n
  end.

Definition castNumber (v : JsValue) : Completion spec_float :=
  match v with
  | JsNumber n => refuse_NaN n
  | JsString EmptyString => Throw ValidationError
  | JsString s => refuse_NaN (StringToNumber s)
  | JsBool true => Normal (number_of_Z 1)
  | JsBool false => Normal (S754_zero false)
  | JsArray _ | JsObject _ => Throw CastError
  | JsUndefined | JsNull => Throw ValidationError
  end.

(** The four values of [{ title, author, year, genre }] cast to the schema. *)
Definition cast_fields (title author year genre : JsValue) : Completion Fields :=
  bind (castString title) (fun t =>
  bind (castString author) (fun a =>
  bind (castNumber year) (fun y =>
  bind (castString genre) (fun g =>
  Normal {| title := t; author := a; year := y; genre := g |})))).

(** The [required] validators, run by [save]: a String path must hold a
    non-empty string (a Number path holds a number once cast). *)
Definition required_ok (f : Fields) : bool :=
  Url.non_empty (title f) && Url.non_empty (author f) && Url.non_empty (genre f).

(** [new Book({ title, author, year, genre })]: the document receives its
    [_id] at once; a cast failure is kept in the document and surfaces when
    it is saved. *)
Record Draft : Type := {
  draft_id : ObjectId;
  draft_fields : Completion Fields
}.

Definition Book_new (title author year genre : JsValue) : Async Draft :=
  fun w =>
    (Normal {| draft_id := next_ObjectId w;
               draft_fields := cast_fields title author year genre |},
     {| connected := connected w; books := books w;
        next_ObjectId := N.succ (next_ObjectId w); calls := calls w |}).

(** [doc.save()]: validation first, then the insert, which the database
    refuses when the [_id] is taken.  Resolves to the saved document. *)
Definition save (d : Draft) : Async Book :=
  fun w =>
    let w := issue (Call_save (draft_id d)) w in
    match draft_fields d with
    | Throw _ => (Throw ValidationError, w)
    | Normal f =>
        if negb (required_ok f) then (Throw ValidationError, w)
        else if negb (connected w) then (Throw MongoError, w)
        else match books w !! draft_id d with
             | Some _ => (Throw MongoError, w)
             | None =>
                 (Normal {| _id := draft_id d; fields := f |},
                  with_books (<[draft_id d := f]> (books w)) w)
             end
    end.

(** [Book.find()] *)
Definition Book_find : Async (list Book) :=
  fun w =>
    let w := issue Call_find w in
    if connected w then (Normal (documents (books w)), w)
    else (Throw MongoError, w).

(** [Book.findByIdAndUpdate(id, { title, author, year, genre }, { new: true })]:
    resolves to the document after the update, or to null ([None]) when no
    document has that [_id].  Update validators are off; the values are cast. *)
Definition Book_findByIdAndUpdate (id : string) (title author year genre : JsValue)
  : Async (option Book) :=
  fun w =>
    let w := issue (Call_findByIdAndUpdate id) w in
    match castObjectId id with
    | Throw e => (Throw e, w)
    | Normal oid =>
        match cast_fields title author year genre with
        | Throw _ => (Throw CastError, w)
        | Normal f =>
            if negb (connected w) then (Throw MongoError, w)
            else match books w !! oid with
                 | None => (Normal None, w)
                 | Some _ =>
                     (Normal (Some {| _id := oid; fields := f |}),
                      with_books (<[oid := f]> (books w)) w)
                 end
        end
    end.

(** [Book.findByIdAndDelete(id)]: resolves to the removed document, or to
    null when there was none. *)
Definition Book_findByIdAndDelete (id : string) : Async (option Book) :=
  fun w =>
    let w := issue (Call_findByIdAndDelete id) w in
    match castObjectId id with
    | Throw e => (Throw e, w)
    | Normal oid =>
        if negb (connected w) then (Throw MongoError, w)
        else match books w !! oid with
             | None => (Normal None, w)
             | Some f =>
                 (Normal (Some {| _id := oid; fields := f |}),
                  with_books (delete oid (books w)) w)
             end
    end.

End WithEngine.

End Mongoose.

(** ** server.js *)
Module Server.
Import Js Mongoose.

Declare Scope async_scope.
Delimit Scope async_scope with async.
Notation "'let*' x ':=' m 'in' k" := (abind m (fun x => k))
  (at level 10, x name, m at level 100, k at level 200) : async_scope.
Open Scope async_scope.

(** What [res.json(value)] is given: a plain value, a Mongoose document or
    an array of documents. *)
Inductive Body : Type :=
| Json (v : JsValue)
| Document (b : Book)
| Documents (l : list Book).

Record Response : Type := {
  status : nat;
  body : Body
}.

(** [res.status(code).json(value)] *)
Definition respond (code : nat) (value : Body) : Async Response :=
  ret {| status := code; body := value |}.

(** [{ message: text }] and [{ error: text }] *)
Definition message (text : string) : Body := Json (JsObject [("message", JsString text)]).
Definition error (text : string) : Body := Json (JsObject [("error", JsString text)]).


(** The two module-level constants read from the environment. *)
Record Config : Type := {
  NEWS_API_KEY : JsValue;
  PORT : JsValue
}.


(** What [fetch] resolves to: the status line and what [response.json()]
    will resolve or reject with. *)
Record FetchResponse : Type := {
  fetch_status : nat;
  fetch_json : Completion JsValue
}.

(** [response.ok] *)
Definition ok (response : FetchResponse) : bool :=
  Nat.leb 200 (fetch_status response) && Nat.leb (fetch_status response) 299.

Section Handlers.
Context {engine : Engine}.

(** GET /books (lines 27-34) *)
Definition get_books : Async Response :=
  atry
    (let* books := Book_find in
     respond 200 (Documents books))
    (fun err => respond 500 (message "Server error")).

(** The template literal of line 42. *)
Definition apiUrl (key query category country : JsValue) : string :=
  "https://newsapi.org/v2/top-headlines?"
    +:+ (if truthy query then "q=" +:+ ToString query +:+ "&" else EmptyString)
    +:+ (if truthy category then "category=" +:+ ToString category +:+ "&" else EmptyString)
    +:+ (if truthy country then "country=" +:+ ToString country +:+ "&" else EmptyString)
    +:+ "apiKey=" +:+ ToString key.

(** The callback of [data.articles.map] (lines 49-55). *)
Definition reshape (article : JsValue) : Completion JsValue :=
  bind (Get article "title") (fun title =>
  bind (Get article "description") (fun description =>
  bind (bind (Get article "source") (fun source => Get source "name")) (fun name =>
  bind (Get article "url") (fun url =>
  bind (Get article "publishedAt") (fun publishedAt =>
  Normal (JsObject [("title", title); ("description", description);
                    ("source", name); ("url", url);
                    ("publishedAt", publishedAt)])))))).

Definition news_error : Body := error "Error fetching news. Try again later.".

(** GET /news (lines 37-65).  [fetch] is the network: what the request to a
    given URL comes back with. *)
Definition get_news (cfg : Config) (fetch : string -> Completion FetchResponse)
    (req_query : list (string * JsValue)) : Async Response :=
  atry
    (let query := prop req_query "query" in
     let category := prop req_query "category" in
     let country := prop req_query "country" in
     let url := apiUrl (NEWS_API_KEY cfg) query category country in
     let* response := await (fetch url) in
     let* data := await (fetch_json response) in
     if ok response then
       let* articles :=
         await (bind (Get data "articles") (fun items => Array_map items reshape)) in
       let* totalResults := await (Get data "totalResults") in
       respond 200
         (Json (JSON_stringify
                  (JsObject [("totalResults", totalResults);
                             ("articles", JsArray articles)]) 2))
     else respond 500 news_error)
    (fun error => respond 500 news_error).

(** The presence check of lines 72 and 96. *)
Definition some_field_falsy (title author year genre : JsValue) : bool :=
  negb (truthy title) || negb (truthy author) || negb (truthy year) || negb (truthy genre).

(** POST /books (lines 68-89).  [req.body] is whatever the body parser left
    there, undefined when it parsed nothing; the destructuring of line 69
    stands before the [try] and throws on undefined or null.  [save]
    resolves to the document it was called on, which is what
    [res.json(newBook)] then sends. *)
Definition post_books (req_body : JsValue) : Async Response :=
  let* title := await (Get req_body "title") in
  let* author := await (Get req_body "author") in
  let* year := await (Get req_body "year") in
  let* genre := await (Get req_body "genre") in
  if some_field_falsy title author year genre then
    respond 400 (message "All fields are required")
  else
    atry
      (let* newBook := Book_new title author year genre in
       let* saved := save newBook in
       respond 201 (Document saved))
      (fun err => respond 500 (message "Server error")).

(** PUT /books/:id (lines 92-109).  The destructuring of line 94 stands
    before the [try] as well. *)
Definition put_books (id : string) (req_body : JsValue) : Async Response :=
  let* title := await (Get req_body "title") in
  let* author := await (Get req_body "author") in
  let* year := await (Get req_body "year") in
  let* genre := await (Get req_body "genre") in
  if some_field_falsy title author year genre then
    respond 400 (message "All fields are required")
  else
    atry
      (let* book := Book_findByIdAndUpdate id title author year genre in
       match book with
       | None => respond 404 (message "Book not found")
       | Some book => respond 200 (Document book)
       end)
      (fun err => respond 500 (message "Server error")).

(** DELETE /books/:id (lines 112-124) *)
Definition delete_books (id : string) : Async Response :=
  atry
    (let* book := Book_findByIdAndDelete id in
     match book with
     | None => respond 404 (message "Book not found")
     | Some _ => respond 200 (message "Book deleted successfully")
     end)
    (fun err => respond 500 (message "Server error")).

End Handlers.

(** An engine never consulted on the inputs of the examples below, which
    keep to integers under 2^53: it answers the empty text and NaN. *)
Definition idle_engine : Engine :=
  {| engine_Number_toString := fun _ => EmptyString;
     engine_StringToNumber := fun _ => S754_nan |}.

End Server.

(** ** The vocabulary of the stated properties *)
Module Properties.
Import Js Mongoose Server.

(** A body field is present and non-empty: it exists, is not null and is
    not the empty text. *)
Definition present_and_non_empty (v : JsValue) : Prop :=
  v <> JsUndefined /\ v <> JsNull /\ v <> JsString EmptyString.


Definition required_fields : list string := ["title"; "author"; "year"; "genre"].

(** The four body fields pass the presence check. *)
Definition all_truthy (req_body : list (string * JsValue)) : Prop :=
  some_field_falsy (prop req_body "title") (prop req_body "author")
                   (prop req_body "year") (prop req_body "genre") = false.

(** The body carries the fields [b] with the types of the schema. *)
Definition carries (req_body : list (string * JsValue)) (b : Fields) : Prop :=
  prop req_body "title" = JsString (title b)
  /\ prop req_body "author" = JsString (author b)
  /\ prop req_body "year" = JsNumber (year b)
  /\ prop req_body "genre" = JsString (genre b).

(** The schema accepts the body with [f] as the stored fields: the casts
    succeed and the required validators pass. *)
Definition schema_accepts {engine : Engine} (req_body : list (string * JsValue))
    (f : Fields) : Prop :=
  cast_fields (prop req_body "title") (prop req_body "author")
              (prop req_body "year") (prop req_body "genre") = Normal f
  /\ required_ok f = true.

(** The route parameter names no document of the collection. *)
Definition names_no_document (id : string) (w : World) : Prop :=
  forall oid, castObjectId id = Normal oid -> books w !! oid = None.

(** The URL GET /news requests for a given query. *)
Definition requested {engine : Engine} (cfg : Config)
    (req_query : list (string * JsValue)) : string :=
  apiUrl (NEWS_API_KEY cfg) (prop req_query "query") (prop req_query "category")
         (prop req_query "country").

(** The upstream outcome is a transport failure or a non-2xx response. *)
Definition upstream_failed (outcome : Completion FetchResponse) : Prop :=
  match outcome with
  | Throw _ => True
  | Normal response => ok response = false
  end.

(** The response body conveys [v]: it is [v], or the JSON text of [v]. *)
Definition conveys {engine : Engine} (b : Body) (v : JsValue) : Prop :=
  b = Json v \/ exists space, b = Json (JSON_stringify v space).

(** [shaped] is the article [article] reshaped: exactly the five properties,
    holding what the upstream article has under [title], [description],
    [source.name], [url] and [publishedAt]. *)
Definition reshaped (article shaped : JsValue) : Prop :=
  exists title description name url publishedAt,
    shaped = JsObject [("title", title); ("description", description);
                       ("source", name); ("url", url);
                       ("publishedAt", publishedAt)]
    /\ Get article "title" = Normal title
    /\ Get article "description" = Normal description
    /\ bind (Get article "source") (fun source => Get source "name") = Normal name
    /\ Get article "url" = Normal url
    /\ Get article "publishedAt" = Normal publishedAt.

(** The article has a source to read a name from: neither the article nor
    its [source] is undefined or null. *)
Definition has_source (article : JsValue) : bool :=
  match Get article "source" with
  | Normal source => negb (nullish source)
  | Throw _ => false
  end.

(** A 2xx response the handler cannot reshape: its body is not JSON, has no
    [articles] array, or has an article without a source. *)
Inductive malformed (response : FetchResponse) : Prop :=
| body_not_json (e : Exn) :
    fetch_json response = Throw e -> malformed response
| no_articles_array (data : JsValue) :
    fetch_json response = Normal data ->
    (forall items, Get data "articles" <> Normal (JsArray items)) ->
    malformed response
| article_without_source (data : JsValue) (items : list JsValue) :
    fetch_json response = Normal data ->
    Get data "articles" = Normal (JsArray items) ->
    Exists (fun article => has_source article = false) items ->
    malformed response.

(** The filter [name], as it is sent when its value is truthy. *)
Definition sent {engine : Engine} (name : string) (v : JsValue) : list (string * string) :=
  if truthy v then [(name, ToString v)] else [].

(** The text interpolated for [v] holds neither [&] nor [#]. *)
Definition plain {engine : Engine} (v : JsValue) : Prop :=
  Url.contains "&" (ToString v) = false /\ Url.contains "#" (ToString v) = false.

(** The body parser left a value in [req.body]: it is neither undefined
    nor null, so the destructuring of lines 69 and 94 does not throw. *)
Definition parsed (req_body : JsValue) : Prop := nullish req_body = false.

(** What that destructuring binds to the name [k]: the body's own property,
    undefined when it has none. *)
Definition body_field (req_body : JsValue) (k : string) : JsValue :=
  match req_body with
  | JsObject props => prop props k
  | _ => JsUndefined
  end.

(** A filter value that is sent is plain (a falsy one is not interpolated). *)
Definition plain_if_sent {engine : Engine} (v : JsValue) : Prop :=
  truthy v = true -> plain v.

End Properties.

(** ** Sample requests and worlds *)
Module Sample.
Import Js Mongoose Server.

Definition empty_store : World :=
  {| connected := true; books := ∅; next_ObjectId := 1%N; calls := [] |}.

Definition unreachable_store : World :=
  {| connected := false; books := ∅; next_ObjectId := 1%N; calls := [] |}.

(** [{"title":"Dune","author":"Herbert","year":<year>,"genre":"SciFi"}] *)
Definition dune (year : JsValue) : list (string * JsValue) :=
  [("title", JsString "Dune"); ("author", JsString "Herbert");
   ("year", year); ("genre", JsString "SciFi")].

Definition dune_fields : Fields :=
  {| title := "Dune"; author := "Herbert"; year := number_of_Z 1965; genre := "SciFi" |}.

Definition messiah_fields : Fields :=
  {| title := "Dune Messiah"; author := "Herbert"; year := number_of_Z 1969;
     genre := "SciFi" |}.

Definition messiah : list (string * JsValue) :=
  [("title", JsString "Dune Messiah"); ("author", JsString "Herbert");
   ("year", JsNumber (number_of_Z 1969)); ("genre", JsString "SciFi")].

(** A well-formed id, [000000000000000000000001], and the store holding
    Dune under it. *)
Definition id1 : string := "000000000000000000000001".

Definition dune_store : World :=
  {| connected := true; books := {[ 1%N := dune_fields ]}; next_ObjectId := 2%N;
     calls := [] |}.

Definition config (key : JsValue) : Config :=
  {| NEWS_API_KEY := key; PORT := JsNumber (number_of_Z 5000) |}.

(** A network on which every request comes back with the given status and
    JSON body. *)
Definition answering (code : nat) (data : JsValue) : string -> Completion FetchResponse :=
  fun _ => Normal {| fetch_status := code; fetch_json := Normal data |}.

Definition bbc_article : JsValue :=
  JsObject [("source", JsObject [("id", JsNull); ("name", JsString "BBC News")]);
            ("author", JsString "A. Writer");
            ("title", JsString "Headline");
            ("description", JsNull);
            ("url", JsString "https://example.org/a");
            ("urlToImage", JsNull);
            ("publishedAt", JsString "2024-05-01T10:00:00Z");
            ("content", JsString "Full text")].

Definition one_article : JsValue :=
  JsObject [("status", JsString "ok");
            ("totalResults", JsNumber (number_of_Z 1));
            ("articles", JsArray [bbc_article])].

Definition unauthorized : JsValue :=
  JsObject [("status", JsString "error"); ("code", JsString "apiKeyInvalid")].

End Sample.

(** ** A store with two books *)
Module Shelf.
Import Js Mongoose Server.

Definition id2 : string := "000000000000000000000002".

(** Dune under id 1 and Dune Messiah under id 2. *)
Definition two_books : World :=
  {| connected := true;
     books := <[ 2%N := Sample.messiah_fields ]> {[ 1%N := Sample.dune_fields ]};
     next_ObjectId := 3%N;
     calls := [] |}.

(** The world a failed [save] leaves: the id is used up and the call is
    logged, the collection is as it was. *)
Definition after_failed_save (w : World) : World :=
  {| connected := connected w; books := books w;
     next_ObjectId := N.succ (next_ObjectId w);
     calls := calls w ++ [Call_save (next_ObjectId w)] |}.

(** The world a successful [save] of the fields [f] leaves. *)
Definition after_save (f : Fields) (w : World) : World :=
  {| connected := connected w;
     books := <[next_ObjectId w := f]> (books w);
     next_ObjectId := N.succ (next_ObjectId w);
     calls := calls w ++ [Call_save (next_ObjectId w)] |}.

End Shelf.

(** * Properties of the handlers *)

Import Js Mongoose Server Properties.

(** Runs the combinators of an async body down to the model calls. *)
Ltac run_async :=
  unfold atry, abind, await, respond, ret; simpl.

(** ** The presence check *)
Section PresenceCheck.
Context {engine : Engine}.

(** What the handlers do with a body that is an object: the destructuring
    binds the four properties and the presence check follows. *)
Lemma post_books_object (props : list (string * JsValue)) (w : World) :
  post_books (JsObject props) w
  = (if some_field_falsy (prop props "title") (prop props "author")
                         (prop props "year") (prop props "genre")
     then respond 400 (message "All fields are required")
     else atry
            (let* newBook := Book_new (prop props "title") (prop props "author")
                                      (prop props "year") (prop props "genre") in
             let* saved := save newBook in
             respond 201 (Document saved))
            (fun err => respond 500 (message "Server error"))) w.
Proof. reflexivity. Qed.

Lemma put_books_object (id : string) (props : list (string * JsValue)) (w : World) :
  put_books id (JsObject props) w
  = (if some_field_falsy (prop props "title") (prop props "author")
                         (prop props "year") (prop props "genre")
     then respond 400 (message "All fields are required")
     else atry
            (let* book := Book_findByIdAndUpdate id (prop props "title")
                            (prop props "author") (prop props "year")
                            (prop props "genre") in
             match book with
             | None => respond 404 (message "Book not found")
             | Some book => respond 200 (Document book)
             end)
            (fun err => respond 500 (message "Server error"))) w.
Proof. reflexivity. Qed.


Lemma zero_falsy (s : bool) : truthy (JsNumber (S754_zero s)) = false.
Proof. reflexivity. Qed.

Lemma falsy_field_fails_check (req_body : list (string * JsValue)) (k : string) :
  k ∈ required_fields ->
  truthy (prop req_body k) = false ->
  some_field_falsy (prop req_body "title") (prop req_body "author")
                   (prop req_body "year") (prop req_body "genre") = true.
Proof.
  unfold required_fields, some_field_falsy. intros Hk Hv.
  repeat (apply elem_of_cons in Hk as [-> | Hk]);
    [ | | | | by apply elem_of_nil in Hk ];
    rewrite Hv; simpl; rewrite ?orb_true_r; reflexivity.
Qed.

Lemma post_books_check_fails (req_body : list (string * JsValue)) (w : World) :
  some_field_falsy (prop req_body "title") (prop req_body "author")
                   (prop req_body "year") (prop req_body "genre") = true ->
  post_books (JsObject req_body) w
  = (Normal {| status := 400; body := message "All fields are required" |}, w).
Proof. intros H. rewrite post_books_object, H. reflexivity. Qed.

Lemma put_books_check_fails (id : string) (req_body : list (string * JsValue)) (w : World) :
  some_field_falsy (prop req_body "title") (prop req_body "author")
                   (prop req_body "year") (prop req_body "genre") = true ->
  put_books id (JsObject req_body) w
  = (Normal {| status := 400; body := message "All fields are required" |}, w).
Proof. intros H. rewrite put_books_object, H. reflexivity. Qed.

(** A parsed body with a falsy field fails the presence check, whether it is
    an object or not (a boolean, number, string or array has none of the
    four fields). *)
Lemma parsed_falsy_field_fails_check (id : string) (req_body : JsValue) (w : World)
    (k : string) :
  parsed req_body ->
  k ∈ required_fields ->
  truthy (body_field req_body k) = false ->
  post_books req_body w
  = (Normal {| status := 400; body := message "All fields are required" |}, w)
  /\ put_books id req_body w
     = (Normal {| status := 400; body := message "All fields are required" |}, w).
Proof.
  unfold parsed. intros Hparsed Hk Hv.
  destruct req_body as [ | | b | n | s | elems | props ];
    try discriminate Hparsed; try (split; reflexivity).
  pose proof (falsy_field_fails_check props k Hk Hv) as Hc.
  split; [by apply post_books_check_fails | by apply put_books_check_fails].
Qed.


End PresenceCheck.



(** ** Creating a book *)
Section Creation.
Context {engine : Engine}.

(** The world after [new Book] and a successful [save] of the fields [f]. *)
Lemma post_books_accepted (req_body : list (string * JsValue)) (w : World) (f : Fields) :
  all_truthy req_body ->
  schema_accepts req_body f ->
  connected w = true ->
  books w !! next_ObjectId w = None ->
  post_books (JsObject req_body) w
  = (Normal {| status := 201;
               body := Document {| _id := next_ObjectId w; fields := f |} |},
     {| connected := connected w;
        books := <[next_ObjectId w := f]> (books w);
        next_ObjectId := N.succ (next_ObjectId w);
        calls := calls w ++ [Call_save (next_ObjectId w)] |}).
Proof.
  intros Hcheck [Hcast Hreq] Hconn Hfresh.
  rewrite post_books_object, Hcheck.
  unfold Book_new, save, issue, with_books. run_async.
  rewrite Hcast, Hreq, Hconn, Hfresh. reflexivity.
Qed.

(** A body carrying schema-typed fields that pass the presence check is
    accepted as it is. *)
Lemma typed_body_accepted (req_body : list (string * JsValue)) (b : Fields) :
  carries req_body b -> all_truthy req_body -> schema_accepts req_body b.
Proof.
  intros (Ht & Ha & Hy & Hg). unfold all_truthy, schema_accepts, some_field_falsy.
  rewrite Ht, Ha, Hy, Hg. destruct b as [t a y g]. simpl.
  intros Hcheck.
  destruct t; [discriminate Hcheck |].
  destruct a; [discriminate Hcheck |].
  destruct y as [sy | sy | | sy my ey]; try discriminate Hcheck;
    (destruct g; [simpl in Hcheck; discriminate Hcheck |]);
    split; reflexivity.
Qed.

(** What a 201 from POST /books tells about the request and the world. *)
Lemma post_books_201 (req_body : list (string * JsValue)) (w : World) (r : Response) :
  fst (post_books (JsObject req_body) w) = Normal r ->
  status r = 201 ->
  exists f,
    cast_fields (prop req_body "title") (prop req_body "author")
                (prop req_body "year") (prop req_body "genre") = Normal f
    /\ r = {| status := 201; body := Document {| _id := next_ObjectId w; fields := f |} |}
    /\ connected (snd (post_books (JsObject req_body) w)) = true
    /\ books (snd (post_books (JsObject req_body) w)) = <[next_ObjectId w := f]> (books w).
Proof.
  rewrite post_books_object.
  destruct (some_field_falsy _ _ _ _); simpl.
  { intros [= <-]. discriminate. }
  unfold atry, abind, Book_new, save, issue, with_books, respond, ret. simpl.
  destruct (cast_fields _ _ _ _) as [f | e]; simpl.
  2: { intros [= <-]. discriminate. }
  destruct (required_ok f); simpl.
  2: { intros [= <-]. discriminate. }
  destruct (connected w) eqn:Hconn; simpl.
  2: { intros [= <-]. discriminate. }
  destruct (books w !! next_ObjectId w); simpl.
  { intros [= <-]. discriminate. }
  intros [= <-] _. exists f. repeat split; assumption.
Qed.

(** C1, as amended.  A POST /books request whose four fields pass the
    presence check, whose values the schema accepts and whose insert the
    store takes (it is reachable and the new id is free) is answered 201
    with the created document, the assigned [_id] included, and the document
    is in the collection; a request whose body was parsed and has any of the
    four fields falsy is answered 400 and leaves the world as it was. *)
Theorem post_books_creates_or_rejects (w : World) :
  (forall props f,
     all_truthy props ->
     schema_accepts props f ->
     connected w = true ->
     books w !! next_ObjectId w = None ->
     fst (post_books (JsObject props) w)
     = Normal {| status := 201;
                 body := Document {| _id := next_ObjectId w; fields := f |} |}
     /\ books (snd (post_books (JsObject props) w)) !! next_ObjectId w = Some f)
  /\ (forall req_body k,
        parsed req_body ->
        k ∈ required_fields ->
        truthy (body_field req_body k) = false ->
        post_books req_body w
        = (Normal {| status := 400; body := message "All fields are required" |}, w)).
Proof.
  split.
  - intros props f Hcheck Hacc Hconn Hfresh.
    rewrite (post_books_accepted props w f Hcheck Hacc Hconn Hfresh). simpl.
    split; [reflexivity | apply lookup_insert_eq].
  - intros req_body k Hparsed Hk Hv.
    apply (parsed_falsy_field_fails_check EmptyString req_body w k Hparsed Hk Hv).
Qed.

(** C9, as amended.  A body whose year is the number zero (of either sign)
    is answered 400 by POST /books and by PUT /books/:id, whatever its other
    fields, and the world stays as it was. *)
Theorem year_zero_is_rejected
    (id : string) (req_body : list (string * JsValue)) (w : World) (sign : bool) :
  prop req_body "year" = JsNumber (S754_zero sign) ->
  post_books (JsObject req_body) w
  = (Normal {| status := 400; body := message "All fields are required" |}, w)
  /\ put_books id (JsObject req_body) w
     = (Normal {| status := 400; body := message "All fields are required" |}, w).
Proof.
  intros Hyear.
  assert (some_field_falsy (prop req_body "title") (prop req_body "author")
            (prop req_body "year") (prop req_body "genre") = true) as Hc.
  { apply (falsy_field_fails_check req_body "year"); [repeat constructor |].
    rewrite Hyear. apply zero_falsy. }
  split; [by apply post_books_check_fails | by apply put_books_check_fails].
Qed.

(** A year given as the text of a digit zero passes the presence check and
    is stored as the number zero, whatever the engine. *)
Lemma text_zero_is_stored (w : World) :
  connected w = true ->
  books w !! next_ObjectId w = None ->
  fst (post_books (JsObject (Sample.dune (JsString "0"))) w)
  = Normal {| status := 201;
              body := Document
                        {| _id := next_ObjectId w;
                           fields := {| title := "Dune"; author := "Herbert";
                                        year := S754_zero false; genre := "SciFi" |} |} |}.
Proof.
  intros Hconn Hfresh.
  rewrite (post_books_accepted _ w
             {| title := "Dune"; author := "Herbert";
                year := S754_zero false; genre := "SciFi" |});
    try assumption; try reflexivity.
  split; reflexivity.
Qed.

End Creation.

(** Two requests with all four fields present and non-empty that are not
    answered 201: [{"title":"Dune","author":"Herbert","year":0,"genre":"SciFi"}]
    is answered 400, and the same body with year 1965 is answered 500 when
    the store cannot be reached.  And a request that omits all four fields
    and is not answered 400: one with no parsed body. *)
Lemma present_fields_yet_not_created :
  (Forall (fun k => present_and_non_empty
                      (prop (Sample.dune (JsNumber (S754_zero false))) k))
          required_fields
   /\ fst (post_books (engine := idle_engine)
             (JsObject (Sample.dune (JsNumber (S754_zero false)))) Sample.empty_store)
      = Normal {| status := 400; body := message "All fields are required" |})
  /\ (Forall (fun k => present_and_non_empty
                         (prop (Sample.dune (JsNumber (number_of_Z 1965))) k))
             required_fields
      /\ fst (post_books (engine := idle_engine)
                (JsObject (Sample.dune (JsNumber (number_of_Z 1965))))
                Sample.unreachable_store)
         = Normal {| status := 500; body := message "Server error" |})
  /\ (Forall (fun k => body_field JsUndefined k = JsUndefined) required_fields
      /\ fst (post_books (engine := idle_engine) JsUndefined Sample.empty_store)
         = Throw TypeError).
Proof.
  split; [ | split ]; (split; [ | reflexivity ]);
    repeat constructor; simpl; discriminate.
Qed.

(** The scenario of the specification: Dune, 1965, on an empty store; and a
    body with a title only. *)
Lemma post_books_creates_or_rejects_witness :
  (fst (post_books (engine := idle_engine)
          (JsObject (Sample.dune (JsNumber (number_of_Z 1965)))) Sample.empty_store)
   = Normal {| status := 201;
               body := Document {| _id := 1%N; fields := Sample.dune_fields |} |}
   /\ books (snd (post_books (engine := idle_engine)
                    (JsObject (Sample.dune (JsNumber (number_of_Z 1965))))
                    Sample.empty_store))
        !! 1%N = Some Sample.dune_fields)
  /\ post_books (engine := idle_engine) (JsObject [("title", JsString "Dune")])
       Sample.empty_store
     = (Normal {| status := 400; body := message "All fields are required" |},
        Sample.empty_store).
Proof.
  split.
  - apply (proj1 (post_books_creates_or_rejects (engine := idle_engine) Sample.empty_store)
             (Sample.dune (JsNumber (number_of_Z 1965))) Sample.dune_fields).
    + reflexivity.
    + split; reflexivity.
    + reflexivity.
    + reflexivity.
  - apply (proj2 (post_books_creates_or_rejects (engine := idle_engine) Sample.empty_store)
             (JsObject [("title", JsString "Dune")]) "genre").
    + reflexivity.
    + repeat constructor.
    + reflexivity.
Defined.

(** [{"title":"Dune","author":"Herbert","year":"0","genre":"SciFi"}]: the
    text of a zero is truthy and the Number path casts it to 0, so POST
    creates, and PUT sets, a book whose year is 0. *)
Lemma text_zero_creates_year_zero :
  fst (post_books (engine := idle_engine) (JsObject (Sample.dune (JsString "0"))) Sample.empty_store)
  = Normal {| status := 201;
              body := Document
                        {| _id := 1%N;
                           fields := {| title := "Dune"; author := "Herbert";
                                        year := S754_zero false; genre := "SciFi" |} |} |}
  /\ fst (put_books (engine := idle_engine) Sample.id1 (JsObject (Sample.dune (JsString "0")))
            Sample.dune_store)
     = Normal {| status := 200;
                 body := Document
                           {| _id := 1%N;
                              fields := {| title := "Dune"; author := "Herbert";
                                           year := S754_zero false; genre := "SciFi" |} |} |}.
Proof. split; reflexivity. Qed.

(** The same body with the number 0 for the year. *)
Lemma year_zero_is_rejected_witness :
  post_books (engine := idle_engine) (JsObject (Sample.dune (JsNumber (S754_zero false))))
    Sample.dune_store
  = (Normal {| status := 400; body := message "All fields are required" |},
     Sample.dune_store)
  /\ put_books (engine := idle_engine) Sample.id1
       (JsObject (Sample.dune (JsNumber (S754_zero false)))) Sample.dune_store
     = (Normal {| status := 400; body := message "All fields are required" |},
        Sample.dune_store).
Proof.
  apply (year_zero_is_rejected (engine := idle_engine) Sample.id1
           (Sample.dune (JsNumber (S754_zero false))) Sample.dune_store false).
  reflexivity.
Defined.

(** ** Listing, updating and deleting *)
Section Collection.
Context {engine : Engine}.

(** The documents listed are the bindings of the collection. *)
Lemma elem_of_documents (m : gmap ObjectId Fields) (b : Book) :
  b ∈ documents m <-> m !! _id b = Some (fields b).
Proof.
  unfold documents. rewrite list_elem_of_In, in_map_iff. split.
  - intros ([k f] & <- & Hin). simpl.
    apply list_elem_of_In in Hin. by apply elem_of_map_to_list in Hin.
  - intros Hb. exists (_id b, fields b). split; [by destruct b |].
    apply list_elem_of_In. by apply elem_of_map_to_list.
Qed.

Lemma get_books_connected (w : World) :
  connected w = true ->
  fst (get_books w) = Normal {| status := 200; body := Documents (documents (books w)) |}.
Proof.
  intros Hconn. unfold get_books, Book_find, issue. run_async.
  rewrite Hconn. reflexivity.
Qed.

(** Schema-typed fields are stored as they are. *)
Lemma carries_cast (req_body : list (string * JsValue)) (b f : Fields) :
  carries req_body b ->
  cast_fields (prop req_body "title") (prop req_body "author")
              (prop req_body "year") (prop req_body "genre") = Normal f ->
  f = b.
Proof.
  intros (-> & -> & -> & ->). destruct b as [t a y g].
  unfold cast_fields. simpl. destruct y; simpl; congruence.
Qed.

Lemma delete_books_unknown (id : string) (oid : ObjectId) (w : World) :
  castObjectId id = Normal oid ->
  books w !! oid = None ->
  connected w = true ->
  delete_books id w
  = (Normal {| status := 404; body := message "Book not found" |},
     issue (Call_findByIdAndDelete id) w).
Proof.
  intros Hid Hnone Hconn.
  unfold delete_books, Book_findByIdAndDelete. run_async.
  rewrite Hid, Hconn, Hnone. reflexivity.
Qed.

Lemma put_books_unknown (id : string) (oid : ObjectId)
    (req_body : list (string * JsValue)) (f : Fields) (w : World) :
  all_truthy req_body ->
  cast_fields (prop req_body "title") (prop req_body "author")
              (prop req_body "year") (prop req_body "genre") = Normal f ->
  castObjectId id = Normal oid ->
  books w !! oid = None ->
  connected w = true ->
  put_books id (JsObject req_body) w
  = (Normal {| status := 404; body := message "Book not found" |},
     issue (Call_findByIdAndUpdate id) w).
Proof.
  intros Hcheck Hcast Hid Hnone Hconn.
  rewrite put_books_object, Hcheck.
  unfold Book_findByIdAndUpdate. run_async.
  rewrite Hid, Hcast, Hconn, Hnone. reflexivity.
Qed.

(** C3, as amended.  For a well-formed id that names no document, with the
    store reachable, DELETE /books/:id answers 404, and so does
    PUT /books/:id when its four fields pass the presence check and cast to
    the schema; the collection is unchanged. *)
Theorem unknown_id_is_not_found (id : string) (oid : ObjectId) (w : World) :
  castObjectId id = Normal oid ->
  books w !! oid = None ->
  connected w = true ->
  (fst (delete_books id w) = Normal {| status := 404; body := message "Book not found" |}
   /\ books (snd (delete_books id w)) = books w)
  /\ (forall req_body f,
        all_truthy req_body ->
        cast_fields (prop req_body "title") (prop req_body "author")
                    (prop req_body "year") (prop req_body "genre") = Normal f ->
        fst (put_books id (JsObject req_body) w)
        = Normal {| status := 404; body := message "Book not found" |}
        /\ books (snd (put_books id (JsObject req_body) w)) = books w).
Proof.
  intros Hid Hnone Hconn. split.
  - rewrite (delete_books_unknown id oid w Hid Hnone Hconn). split; reflexivity.
  - intros req_body f Hcheck Hcast.
    rewrite (put_books_unknown id oid req_body f w Hcheck Hcast Hid Hnone Hconn).
    split; reflexivity.
Qed.

(** What a 200 from PUT /books/:id tells. *)
Lemma put_books_200 (id : string) (req_body : list (string * JsValue))
    (w : World) (r : Response) :
  fst (put_books id (JsObject req_body) w) = Normal r ->
  status r = 200 ->
  exists oid f,
    castObjectId id = Normal oid
    /\ cast_fields (prop req_body "title") (prop req_body "author")
                   (prop req_body "year") (prop req_body "genre") = Normal f
    /\ r = {| status := 200; body := Document {| _id := oid; fields := f |} |}
    /\ connected (snd (put_books id (JsObject req_body) w)) = true
    /\ books (snd (put_books id (JsObject req_body) w)) = <[oid := f]> (books w).
Proof.
  rewrite put_books_object.
  destruct (some_field_falsy _ _ _ _); simpl.
  { intros [= <-]. discriminate. }
  unfold atry, abind, Book_findByIdAndUpdate, issue, with_books, respond, ret. simpl.
  destruct (castObjectId id) as [oid | e]; simpl.
  2: { intros [= <-]. discriminate. }
  destruct (cast_fields _ _ _ _) as [f | e]; simpl.
  2: { intros [= <-]. discriminate. }
  destruct (connected w) eqn:Hconn; simpl.
  2: { intros [= <-]. discriminate. }
  destruct (books w !! oid); simpl.
  2: { intros [= <-]. discriminate. }
  intros [= <-] _. exists oid, f. repeat split; assumption.
Qed.

(** What a 200 from DELETE /books/:id tells. *)
Lemma delete_books_200 (id : string) (w : World) (r : Response) :
  fst (delete_books id w) = Normal r ->
  status r = 200 ->
  exists oid,
    castObjectId id = Normal oid
    /\ connected (snd (delete_books id w)) = true
    /\ books (snd (delete_books id w)) = delete oid (books w).
Proof.
  unfold delete_books, atry, abind, Book_findByIdAndDelete, issue, with_books,
    respond, ret. simpl.
  destruct (castObjectId id) as [oid | e]; simpl.
  2: { intros [= <-]. discriminate. }
  destruct (connected w) eqn:Hconn; simpl.
  2: { intros [= <-]. discriminate. }
  destruct (books w !! oid); simpl.
  2: { intros [= <-]. discriminate. }
  intros [= <-] _. exists oid. repeat split; assumption.
Qed.

(** C4.  Round trip over the collection: after a POST /books answered 201
    for the fields [b], GET /books lists a document with exactly the fields
    [b] under the assigned id; after a PUT /books/:id answered 200 for the
    fields [b2], GET /books lists [b2] under that id, and every listed
    document with that id has the fields [b2]; after a DELETE /books/:id
    answered 200, GET /books lists no document with that id. *)
Theorem round_trip :
  (forall (req_body : list (string * JsValue)) (b : Fields) (w : World) (r : Response),
     carries req_body b ->
     fst (post_books (JsObject req_body) w) = Normal r ->
     status r = 201 ->
     exists oid listed,
       body r = Document {| _id := oid; fields := b |}
       /\ fst (get_books (snd (post_books (JsObject req_body) w)))
          = Normal {| status := 200; body := Documents listed |}
       /\ {| _id := oid; fields := b |} ∈ listed)
  /\ (forall (id : string) (req_body : list (string * JsValue)) (b2 : Fields)
        (w : World) (r : Response),
        carries req_body b2 ->
        fst (put_books id (JsObject req_body) w) = Normal r ->
        status r = 200 ->
        exists oid listed,
          castObjectId id = Normal oid
          /\ fst (get_books (snd (put_books id (JsObject req_body) w)))
             = Normal {| status := 200; body := Documents listed |}
          /\ {| _id := oid; fields := b2 |} ∈ listed
          /\ (forall x, x ∈ listed -> _id x = oid -> fields x = b2))
  /\ (forall (id : string) (w : World) (r : Response),
        fst (delete_books id w) = Normal r ->
        status r = 200 ->
        exists oid listed,
          castObjectId id = Normal oid
          /\ fst (get_books (snd (delete_books id w)))
             = Normal {| status := 200; body := Documents listed |}
          /\ (forall x, x ∈ listed -> _id x <> oid)).
Proof.
  split; [ | split ].
  - intros req_body b w r Hb Hr H201.
    destruct (post_books_201 req_body w r Hr H201) as (f & Hcast & -> & Hconn & Hbooks).
    rewrite (carries_cast req_body b f Hb Hcast) in *.
    exists (next_ObjectId w), (documents (books (snd (post_books (JsObject req_body) w)))).
    split; [reflexivity |]. split; [by apply get_books_connected |].
    apply elem_of_documents. simpl. rewrite Hbooks. apply lookup_insert_eq.
  - intros id req_body b2 w r Hb Hr H200.
    destruct (put_books_200 id req_body w r Hr H200)
      as (oid & f & Hid & Hcast & -> & Hconn & Hbooks).
    rewrite (carries_cast req_body b2 f Hb Hcast) in *.
    exists oid, (documents (books (snd (put_books id (JsObject req_body) w)))).
    split; [assumption |]. split; [by apply get_books_connected |].
    split.
    + apply elem_of_documents. simpl. rewrite Hbooks. apply lookup_insert_eq.
    + intros x Hx Hxid. apply elem_of_documents in Hx.
      rewrite Hbooks, Hxid, lookup_insert_eq in Hx. congruence.
  - intros id w r Hr H200.
    destruct (delete_books_200 id w r Hr H200) as (oid & Hid & Hconn & Hbooks).
    exists oid, (documents (books (snd (delete_books id w)))).
    split; [assumption |]. split; [by apply get_books_connected |].
    intros x Hx Hxid. apply elem_of_documents in Hx.
    rewrite Hbooks, Hxid, lookup_delete_eq in Hx. discriminate.
Qed.

End Collection.

(** Ids that name no document and are not answered 404: DELETE /books/abc
    is answered 500 (the id is no ObjectId); PUT with the body [{}] is
    answered 400; DELETE with a well-formed id is answered 500 when the
    store cannot be reached. *)
Lemma unknown_id_not_always_404 :
  (names_no_document "abc" Sample.empty_store
   /\ fst (delete_books "abc" Sample.empty_store)
      = Normal {| status := 500; body := message "Server error" |})
  /\ (names_no_document Sample.id1 Sample.empty_store
      /\ fst (put_books (engine := idle_engine) Sample.id1 (JsObject []) Sample.empty_store)
         = Normal {| status := 400; body := message "All fields are required" |})
  /\ (names_no_document Sample.id1 Sample.unreachable_store
      /\ fst (delete_books Sample.id1 Sample.unreachable_store)
         = Normal {| status := 500; body := message "Server error" |}).
Proof.
  repeat split; try reflexivity; intros oid H; try discriminate H; reflexivity.
Qed.

(** DELETE and PUT of [000000000000000000000001] on an empty store. *)
Lemma unknown_id_is_not_found_witness :
  (fst (delete_books Sample.id1 Sample.empty_store)
   = Normal {| status := 404; body := message "Book not found" |}
   /\ books (snd (delete_books Sample.id1 Sample.empty_store)) = books Sample.empty_store)
  /\ (fst (put_books (engine := idle_engine) Sample.id1 (JsObject Sample.messiah) Sample.empty_store)
      = Normal {| status := 404; body := message "Book not found" |}
      /\ books (snd (put_books (engine := idle_engine) Sample.id1 (JsObject Sample.messiah)
                       Sample.empty_store))
         = books Sample.empty_store).
Proof.
  destruct (unknown_id_is_not_found (engine := idle_engine) Sample.id1 1%N
              Sample.empty_store) as [Hdelete Hput]; try reflexivity.
  split; [exact Hdelete |].
  apply (Hput Sample.messiah Sample.messiah_fields); reflexivity.
Defined.

(** Dune created on an empty store, then listed; Dune replaced by Dune
    Messiah under its id, then listed; Dune deleted, then listed. *)
Lemma round_trip_witness :
  (exists oid listed,
     body {| status := 201; body := Document {| _id := 1%N; fields := Sample.dune_fields |} |}
     = Document {| _id := oid; fields := Sample.dune_fields |}
     /\ fst (get_books
               (snd (post_books (engine := idle_engine)
                       (JsObject (Sample.dune (JsNumber (number_of_Z 1965)))) Sample.empty_store)))
        = Normal {| status := 200; body := Documents listed |}
     /\ {| _id := oid; fields := Sample.dune_fields |} ∈ listed)
  /\ (exists oid listed,
        castObjectId Sample.id1 = Normal oid
        /\ fst (get_books
                  (snd (put_books (engine := idle_engine) Sample.id1 (JsObject Sample.messiah)
                          Sample.dune_store)))
           = Normal {| status := 200; body := Documents listed |}
        /\ {| _id := oid; fields := Sample.messiah_fields |} ∈ listed
        /\ (forall x, x ∈ listed -> _id x = oid -> fields x = Sample.messiah_fields))
  /\ (exists oid listed,
        castObjectId Sample.id1 = Normal oid
        /\ fst (get_books (snd (delete_books Sample.id1 Sample.dune_store)))
           = Normal {| status := 200; body := Documents listed |}
        /\ (forall x, x ∈ listed -> _id x <> oid)).
Proof.
  destruct (round_trip (engine := idle_engine)) as (Hcreate & Hupdate & Hdelete).
  split; [ | split ].
  - apply (Hcreate (Sample.dune (JsNumber (number_of_Z 1965))) Sample.dune_fields
             Sample.empty_store
             {| status := 201;
                body := Document {| _id := 1%N; fields := Sample.dune_fields |} |}).
    + repeat split.
    + reflexivity.
    + reflexivity.
  - apply (Hupdate Sample.id1 Sample.messiah Sample.messiah_fields Sample.dune_store
             {| status := 200;
                body := Document {| _id := 1%N; fields := Sample.messiah_fields |} |}).
    + repeat split.
    + reflexivity.
    + reflexivity.
  - apply (Hdelete Sample.id1 Sample.dune_store
             {| status := 200; body := message "Book deleted successfully" |}).
    + reflexivity.
    + reflexivity.
Defined.

(** ** The news proxy *)
Section News.
Context {engine : Engine}.

Lemma get_news_failed (cfg : Config) (fetch : string -> Completion FetchResponse)
    (req_query : list (string * JsValue)) (w : World) :
  upstream_failed (fetch (requested cfg req_query)) ->
  get_news cfg fetch req_query w = (Normal {| status := 500; body := news_error |}, w).
Proof.
  unfold requested, get_news. run_async.
  destruct (fetch _) as [response | e]; simpl; [ | reflexivity ].
  intros Hok. destruct (fetch_json response); [ | reflexivity ].
  rewrite Hok. reflexivity.
Qed.

Lemma Get_defined (v : JsValue) (k : string) :
  nullish v = false -> exists x, Get v k = Normal x.
Proof. destruct v; simpl; intros H; try discriminate H; eauto. Qed.

Lemma has_source_reshape (article : JsValue) :
  has_source article = true ->
  exists shaped, reshape article = Normal shaped /\ reshaped article shaped.
Proof.
  unfold has_source, reshape, reshaped. intros Hs.
  destruct (Get article "source") as [source | e] eqn:Hsource; [ | discriminate Hs ].
  apply negb_true_iff in Hs.
  assert (nullish article = false) as Hart.
  { destruct article; simpl in *; try reflexivity; discriminate Hsource. }
  destruct (Get_defined article "title" Hart) as [t Ht].
  destruct (Get_defined article "description" Hart) as [d Hd].
  destruct (Get_defined article "url" Hart) as [u Hu].
  destruct (Get_defined article "publishedAt" Hart) as [p Hp].
  destruct (Get_defined source "name" Hs) as [n Hn].
  rewrite Ht, Hd, Hu, Hp. simpl. rewrite Hn. simpl.
  eexists. split; [reflexivity |].
  exists t, d, n, u, p. repeat split; assumption.
Qed.

Lemma without_source_reshape (article : JsValue) :
  has_source article = false -> reshape article = Throw TypeError.
Proof.
  unfold has_source, reshape.
  destruct article as [ | | b | n | s | elems | props ]; simpl; try reflexivity;
    try discriminate.
  destruct (prop props "source"); simpl; try discriminate; reflexivity.
Qed.

Lemma map_elements_reshape (items : list JsValue) :
  Forall (fun article => has_source article = true) items ->
  exists out, map_elements reshape items = Normal out /\ Forall2 reshaped items out.
Proof.
  induction 1 as [ | article rest Hs _ (out & Hout & Hall) ].
  - exists []. split; [reflexivity | constructor].
  - destruct (has_source_reshape article Hs) as (shaped & Hshaped & Hre).
    exists (shaped :: out). simpl. rewrite Hshaped, Hout. simpl.
    split; [reflexivity | by constructor].
Qed.

Lemma map_elements_throws (items : list JsValue) :
  Exists (fun article => has_source article = false) items ->
  exists e, map_elements reshape items = Throw e.
Proof.
  induction 1 as [ article rest Hs | article rest _ (e & He) ]; simpl.
  - rewrite (without_source_reshape article Hs). simpl. eauto.
  - destruct (reshape article); simpl; [ | eauto ].
    rewrite He. simpl. eauto.
Qed.

Lemma get_news_malformed (cfg : Config) (fetch : string -> Completion FetchResponse)
    (req_query : list (string * JsValue)) (w : World) (response : FetchResponse) :
  fetch (requested cfg req_query) = Normal response ->
  malformed response ->
  get_news cfg fetch req_query w = (Normal {| status := 500; body := news_error |}, w).
Proof.
  intros Hfetch Hbad.
  unfold requested in Hfetch.
  unfold get_news, atry, abind, await, respond, ret. rewrite Hfetch. simpl.
  destruct Hbad as [ e Hjson | data Hjson Hnone | data items Hjson Harts Hex ];
    rewrite Hjson; simpl; try reflexivity;
    destruct (ok response); try reflexivity.
  - destruct (Get data "articles") as [v | e]; simpl; [ | reflexivity ].
    destruct v; simpl; try reflexivity.
    exfalso. by eapply Hnone.
  - rewrite Harts. simpl.
    destruct (map_elements_throws items Hex) as [e ->]. reflexivity.
Qed.

(** Every run of the handler ends in a response, 200 or the generic 500,
    and leaves the world alone. *)
Lemma get_news_total (cfg : Config) (fetch : string -> Completion FetchResponse)
    (req_query : list (string * JsValue)) (w : World) :
  exists r,
    get_news cfg fetch req_query w = (Normal r, w)
    /\ (status r = 200 \/ r = {| status := 500; body := news_error |}).
Proof.
  unfold get_news, atry, abind, await, respond, ret.
  destruct (fetch _) as [response | e]; simpl; [ | eauto ].
  destruct (fetch_json response) as [data | e]; simpl; [ | eauto ].
  destruct (ok response); [ | eauto ].
  destruct (bind (Get data "articles") _) as [articles | e]; simpl; [ | eauto ].
  destruct (Get data "totalResults") as [total | e]; simpl; eauto.
Qed.

(** C6.  When the upstream call fails in transport or comes back non-2xx,
    GET /news answers 500 with the one fixed body
    [{ error: "Error fetching news. Try again later." }]: the same value
    whatever the upstream sent or threw, so nothing of the payload or of the
    error reaches the caller. *)
Theorem upstream_failure_is_generic_500
    (cfg : Config) (fetch : string -> Completion FetchResponse)
    (req_query : list (string * JsValue)) (w : World) :
  upstream_failed (fetch (requested cfg req_query)) ->
  fst (get_news cfg fetch req_query w)
  = Normal {| status := 500;
              body := Json (JsObject [("error",
                                       JsString "Error fetching news. Try again later.")]) |}.
Proof. intros H. rewrite (get_news_failed cfg fetch req_query w H). reflexivity. Qed.

(** C10.  GET /news is total over the upstream outcomes: it always completes
    normally (no exception leaves the handler) with a response that is 200
    or the generic 500; and a 2xx response whose body is not JSON, has no
    articles array, or holds an article without a source, is answered with
    the generic 500. *)
Theorem get_news_never_throws
    (cfg : Config) (fetch : string -> Completion FetchResponse)
    (req_query : list (string * JsValue)) (w : World) :
  exists r,
    fst (get_news cfg fetch req_query w) = Normal r
    /\ (status r = 200 \/ r = {| status := 500; body := news_error |})
    /\ (forall response,
          fetch (requested cfg req_query) = Normal response ->
          ok response = true ->
          malformed response ->
          r = {| status := 500; body := news_error |}).
Proof.
  destruct (get_news_total cfg fetch req_query w) as (r & Hrun & Hstatus).
  exists r. rewrite Hrun. split; [reflexivity |]. split; [assumption |].
  intros response Hfetch _ Hbad.
  rewrite (get_news_malformed cfg fetch req_query w response Hfetch Hbad) in Hrun.
  congruence.
Qed.

(** C2, as amended.  When the upstream answers 2xx with a JSON body whose
    [articles] is an array of articles that each have a source, GET /news
    answers 200 and its body conveys [{ totalResults, articles }]:
    [totalResults] as the upstream gave it, and one reshaped article per
    upstream article, in order, each with exactly the five properties
    title, description, source (the upstream [source.name]), url and
    publishedAt. *)
Theorem get_news_reshapes
    (cfg : Config) (fetch : string -> Completion FetchResponse)
    (req_query : list (string * JsValue)) (w : World)
    (response : FetchResponse) (data : JsValue) (items : list JsValue) :
  fetch (requested cfg req_query) = Normal response ->
  ok response = true ->
  fetch_json response = Normal data ->
  Get data "articles" = Normal (JsArray items) ->
  Forall (fun article => has_source article = true) items ->
  exists r totalResults articles,
    fst (get_news cfg fetch req_query w) = Normal r
    /\ status r = 200
    /\ Get data "totalResults" = Normal totalResults
    /\ conveys (body r) (JsObject [("totalResults", totalResults);
                                   ("articles", JsArray articles)])
    /\ length articles = length items
    /\ Forall2 reshaped items articles.
Proof.
  intros Hfetch Hok Hjson Harts Hsrc.
  destruct (map_elements_reshape items Hsrc) as (out & Hout & Hall).
  assert (nullish data = false) as Hdata.
  { destruct data; simpl in *; try reflexivity; discriminate Harts. }
  destruct (Get_defined data "totalResults" Hdata) as [total Htotal].
  unfold requested in Hfetch.
  unfold get_news, atry, abind, await, respond, ret.
  rewrite Hfetch. simpl. rewrite Hjson. simpl. rewrite Hok, Harts. simpl.
  rewrite Hout. simpl. rewrite Htotal. simpl.
  eexists _, total, out. split; [reflexivity |]. simpl.
  repeat split; try assumption.
  - right. exists 2. reflexivity.
  - symmetry. by eapply Forall2_length.
Qed.

Lemma reshape_normal (article shaped : JsValue) :
  reshape article = Normal shaped -> reshaped article shaped.
Proof.
  intros Hre. destruct (has_source article) eqn:Hs.
  - destruct (has_source_reshape article Hs) as (shaped' & Hre' & Hshaped).
    congruence.
  - rewrite (without_source_reshape article Hs) in Hre. discriminate.
Qed.

Lemma map_elements_reshaped (items out : list JsValue) :
  map_elements reshape items = Normal out -> Forall2 reshaped items out.
Proof.
  revert out. induction items as [ | article rest IH ]; intros out; simpl.
  - intros [= <-]. constructor.
  - destruct (reshape article) as [shaped | e] eqn:Hre; simpl; [ | discriminate ].
    destruct (map_elements reshape rest) as [rest' | e]; simpl; [ | discriminate ].
    intros [= <-]. constructor; [by apply reshape_normal | by apply IH].
Qed.

(** X15.  Whenever GET /news answers 200, what line 58 hands to [res.json]
    is a string and never the object: the text that
    [JSON.stringify(..., null, 2)] gives for [{ totalResults, articles }],
    with [totalResults] as the upstream body has it and [articles] the
    upstream articles reshaped, in order. *)
Lemma get_news_sends_text
    (cfg : Config) (fetch : string -> Completion FetchResponse)
    (req_query : list (string * JsValue)) (w : World) (r : Response) :
  fst (get_news cfg fetch req_query w) = Normal r ->
  status r = 200 ->
  exists response data items totalResults articles text,
    fetch (requested cfg req_query) = Normal response
    /\ fetch_json response = Normal data
    /\ Get data "articles" = Normal (JsArray items)
    /\ Get data "totalResults" = Normal totalResults
    /\ Forall2 reshaped items articles
    /\ JSON_stringify (JsObject [("totalResults", totalResults);
                                 ("articles", JsArray articles)]) 2
       = JsString text
    /\ body r = Json (JsString text).
Proof.
  unfold requested, get_news. run_async.
  destruct (fetch _) as [response | e] eqn:Hfetch; simpl.
  2: { intros [= <-]. discriminate. }
  destruct (fetch_json response) as [data | e] eqn:Hjson; simpl.
  2: { intros [= <-]. discriminate. }
  destruct (ok response).
  2: { intros [= <-]. discriminate. }
  destruct (Get data "articles") as [v | e] eqn:Harts; simpl.
  2: { intros [= <-]. discriminate. }
  destruct v as [ | | b | n | s | items | props ]; simpl;
    try (intros [= <-]; discriminate).
  destruct (map_elements reshape items) as [articles | e] eqn:Harticles; simpl.
  2: { intros [= <-]. discriminate. }
  destruct (Get data "totalResults") as [total | e] eqn:Htotal; simpl.
  2: { intros [= <-]. discriminate. }
  intros [= <-] _. simpl.
  exists response, data, items, total, articles.
  unfold JSON_stringify. simpl. eexists.
  repeat split; try assumption; try reflexivity.
  by apply map_elements_reshaped.
Qed.

End News.

(** ** The upstream URL *)
Section UpstreamUrl.
Context {engine : Engine}.

#[local] Arguments String.append !s1 s2 : simpl nomatch.

Lemma append_assoc (a b c : string) : (a +:+ b) +:+ c = a +:+ (b +:+ c).
Proof. induction a as [ | x a IH ]; simpl; [reflexivity | by rewrite IH]. Qed.

Lemma contains_append (c : ascii) (a b : string) :
  Url.contains c (a +:+ b) = Url.contains c a || Url.contains c b.
Proof.
  induction a as [ | x a IH ]; simpl; [reflexivity |].
  rewrite IH. by destruct (Url.is_char c x).
Qed.

Lemma before_absent (c : ascii) (s : string) :
  Url.contains c s = false -> Url.before c s = s.
Proof.
  induction s as [ | x s IH ]; simpl; [reflexivity |].
  destruct (Url.is_char c x); simpl; [discriminate |].
  intros H. by rewrite IH.
Qed.

Lemma split_on_absent (c : ascii) (s : string) :
  Url.contains c s = false -> Url.split_on c s = [s].
Proof.
  induction s as [ | x s IH ]; simpl; [reflexivity |].
  destruct (Url.is_char c x); simpl; [discriminate |].
  intros H. by rewrite IH.
Qed.

Lemma split_on_append (c : ascii) (a b : string) :
  Url.contains c a = false ->
  Url.split_on c (a +:+ String c b) = a :: Url.split_on c b.
Proof.
  induction a as [ | x a IH ]; simpl.
  - intros _. unfold Url.is_char. by rewrite Ascii.eqb_refl.
  - destruct (Url.is_char c x); simpl; [discriminate |].
    intros H. by rewrite IH.
Qed.

(** One piece [name=value] followed by [&] and the rest of the query. *)
Lemma parse_piece (piece rest : string) :
  Url.contains "&" piece = false ->
  Url.non_empty piece = true ->
  Url.parse (piece +:+ String "&" rest) = Url.name_value piece :: Url.parse rest.
Proof.
  intros Hplain Hne. unfold Url.parse.
  rewrite (split_on_append "&" piece rest Hplain). simpl. by rewrite Hne.
Qed.

Lemma parse_last (piece : string) :
  Url.contains "&" piece = false ->
  Url.non_empty piece = true ->
  Url.parse piece = [Url.name_value piece].
Proof.
  intros Hplain Hne. unfold Url.parse.
  rewrite (split_on_absent "&" piece Hplain). simpl. by rewrite Hne.
Qed.

(** A filter written by the template, in front of the rest of the query. *)
Lemma parse_filter (name : string) (v : JsValue) (rest : string) :
  Url.contains "&" name = false ->
  Url.contains "=" name = false ->
  Url.non_empty name = true ->
  plain_if_sent v ->
  Url.parse ((if truthy v then (name +:+ "=") +:+ ToString v +:+ "&" else EmptyString)
               +:+ rest)
  = (sent name v ++ Url.parse rest)%list.
Proof.
  intros Hamp Heq Hne Hplain. unfold sent, plain_if_sent in *.
  destruct (truthy v); [ | reflexivity ].
  destruct (Hplain eq_refl) as [Hv _].
  replace (((name +:+ "=") +:+ ToString v +:+ "&") +:+ rest)
    with (((name +:+ "=") +:+ ToString v) +:+ String "&" rest)
    by (rewrite !append_assoc; reflexivity).
  rewrite parse_piece.
  - simpl. f_equal. unfold Url.name_value.
    rewrite append_assoc. f_equal.
    + clear Hamp Hne. induction name as [ | x name IH ]; simpl in *; [reflexivity |].
      destruct (Url.is_char "=" x); simpl in *; [discriminate |]. by rewrite IH.
    + clear Hamp Hne. induction name as [ | x name IH ]; simpl in *; [reflexivity |].
      destruct (Url.is_char "=" x); simpl in *; [discriminate |]. by apply IH.
  - rewrite !contains_append, Hamp, Hv. reflexivity.
  - destruct name; [discriminate Hne | reflexivity].
Qed.

(** C5, as amended.  When the texts interpolated for the key and for the
    filters that are sent hold neither [&] nor [#], the query of the
    upstream URL is exactly: [q], [category] and [country], each present
    precisely when its value is truthy and carrying that value as written,
    in this order, then [apiKey].  Each filter is there or not independently
    of the other two. *)
Theorem upstream_url_carries_supplied_filters (key query category country : JsValue) :
  plain key -> plain_if_sent query -> plain_if_sent category -> plain_if_sent country ->
  Url.searchParams (apiUrl key query category country)
  = (sent "q" query ++ sent "category" category ++ sent "country" country
       ++ [("apiKey", ToString key)])%list.
Proof.
  intros [Hk1 Hk2] Hq Hc Hn.
  assert (forall name v, plain_if_sent v -> Url.contains "#" name = false ->
            Url.contains "#" (if truthy v then name +:+ ToString v +:+ "&"
                              else EmptyString) = false) as Hhash.
  { intros name v Hplain Hname. unfold plain_if_sent in Hplain.
    destruct (truthy v); [ | reflexivity ].
    destruct (Hplain eq_refl) as [_ Hv].
    rewrite !contains_append, Hname, Hv. reflexivity. }
  unfold Url.searchParams, Url.query, apiUrl.
  rewrite before_absent.
  2: { rewrite !contains_append, (Hhash "q=" query Hq), (Hhash "category=" category Hc),
         (Hhash "country=" country Hn), Hk2 by reflexivity. reflexivity. }
  cbn [String.append Url.after Url.is_char Ascii.eqb Bool.eqb].
  rewrite (parse_filter "q" query) by (assumption || reflexivity).
  rewrite (parse_filter "category" category) by (assumption || reflexivity).
  rewrite (parse_filter "country" country) by (assumption || reflexivity).
  rewrite parse_last.
  - reflexivity.
  - simpl. exact Hk1.
  - reflexivity.
Qed.




End UpstreamUrl.

(** The upstream answers 401, or the connection fails. *)
Lemma upstream_failure_is_generic_500_witness :
  fst (get_news (engine := idle_engine) (Sample.config (JsString "k3y"))
         (Sample.answering 401 Sample.unauthorized) [("query", JsString "bitcoin")]
         Sample.empty_store)
  = Normal {| status := 500;
              body := Json (JsObject [("error",
                                       JsString "Error fetching news. Try again later.")]) |}
  /\ fst (get_news (engine := idle_engine) (Sample.config (JsString "k3y"))
            (fun _ => Throw FetchFailed) [("query", JsString "bitcoin")]
            Sample.empty_store)
     = Normal {| status := 500;
                 body := Json (JsObject [("error",
                                          JsString "Error fetching news. Try again later.")]) |}.
Proof.
  split.
  - apply (upstream_failure_is_generic_500 (engine := idle_engine)
             (Sample.config (JsString "k3y")) (Sample.answering 401 Sample.unauthorized)).
    reflexivity.
  - apply (upstream_failure_is_generic_500 (engine := idle_engine)
             (Sample.config (JsString "k3y")) (fun _ => Throw FetchFailed)).
    exact I.
Defined.

(** The upstream answers 200 with [{"status":"ok"}], which has no articles. *)
Lemma get_news_never_throws_witness :
  fst (get_news (engine := idle_engine) (Sample.config (JsString "k3y"))
         (Sample.answering 200 (JsObject [("status", JsString "ok")])) []
         Sample.empty_store)
  = Normal {| status := 500; body := news_error |}.
Proof.
  destruct (get_news_never_throws (engine := idle_engine) (Sample.config (JsString "k3y"))
              (Sample.answering 200 (JsObject [("status", JsString "ok")])) []
              Sample.empty_store) as (r & Hr & _ & Hbad).
  rewrite Hr. f_equal.
  apply (Hbad {| fetch_status := 200;
                 fetch_json := Normal (JsObject [("status", JsString "ok")]) |}).
  - reflexivity.
  - reflexivity.
  - apply no_articles_array with (data := JsObject [("status", JsString "ok")]).
    + reflexivity.
    + intros items H. discriminate H.
Defined.

(** A 2xx upstream response, [{"status":"ok","totalResults":0}], that is
    answered 500: [data.articles] is undefined and [.map] throws. *)
Lemma success_without_articles_is_500 :
  ok {| fetch_status := 200;
        fetch_json := Normal (JsObject [("status", JsString "ok");
                                        ("totalResults", JsNumber (S754_zero false))]) |}
  = true
  /\ fst (get_news (engine := idle_engine) (Sample.config (JsString "k3y"))
            (Sample.answering 200
               (JsObject [("status", JsString "ok");
                          ("totalResults", JsNumber (S754_zero false))]))
            [] Sample.empty_store)
     = Normal {| status := 500; body := news_error |}.
Proof. split; reflexivity. Qed.

(** One article of the provider's usual shape. *)
Lemma get_news_reshapes_witness :
  exists r totalResults articles,
    fst (get_news (engine := idle_engine) (Sample.config (JsString "k3y"))
           (Sample.answering 200 Sample.one_article) [("country", JsString "gb")]
           Sample.empty_store) = Normal r
    /\ status r = 200
    /\ Get Sample.one_article "totalResults" = Normal totalResults
    /\ conveys (engine := idle_engine) (body r)
         (JsObject [("totalResults", totalResults); ("articles", JsArray articles)])
    /\ length articles = length [Sample.bbc_article]
    /\ Forall2 reshaped [Sample.bbc_article] articles.
Proof.
  apply (get_news_reshapes (engine := idle_engine) (Sample.config (JsString "k3y"))
           (Sample.answering 200 Sample.one_article) [("country", JsString "gb")]
           Sample.empty_store
           {| fetch_status := 200; fetch_json := Normal Sample.one_article |}
           Sample.one_article [Sample.bbc_article]).
  - reflexivity.
  - reflexivity.
  - reflexivity.
  - reflexivity.
  - repeat constructor.
Defined.

(** GET /news?query=x%26country%3Dus sends a country filter the caller
    did not supply; GET /news?query=a%23b&category=technology sends no
    category, which the caller did supply (it falls in the fragment). *)
Lemma unescaped_value_changes_the_filters :
  Url.param_names
    (apiUrl (engine := idle_engine) (JsString "k3y") (JsString "x&country=us")
            JsUndefined JsUndefined)
  = ["q"; "country"; "apiKey"]
  /\ Url.param_names
       (apiUrl (engine := idle_engine) (JsString "k3y") (JsString "a#b")
               (JsString "technology") JsUndefined)
     = ["q"].
Proof. split; reflexivity. Qed.

(** No filter; all three; country alone. *)
Lemma upstream_url_carries_supplied_filters_witness :
  Url.searchParams
    (apiUrl (engine := idle_engine) (JsString "k3y") JsUndefined JsUndefined JsUndefined)
  = [("apiKey", "k3y")]
  /\ Url.searchParams
       (apiUrl (engine := idle_engine) (JsString "k3y") (JsString "bitcoin")
               (JsString "technology") (JsString "us"))
     = [("q", "bitcoin"); ("category", "technology"); ("country", "us"); ("apiKey", "k3y")]
  /\ Url.searchParams
       (apiUrl (engine := idle_engine) (JsString "k3y") JsUndefined JsUndefined
               (JsString "gb"))
     = [("country", "gb"); ("apiKey", "k3y")].
Proof.
  split; [ | split ].
  - apply (upstream_url_carries_supplied_filters (engine := idle_engine)
             (JsString "k3y") JsUndefined JsUndefined JsUndefined);
      try (intros _); split; reflexivity.
  - apply (upstream_url_carries_supplied_filters (engine := idle_engine)
             (JsString "k3y") (JsString "bitcoin") (JsString "technology") (JsString "us"));
      try (intros _); split; reflexivity.
  - apply (upstream_url_carries_supplied_filters (engine := idle_engine)
             (JsString "k3y") JsUndefined JsUndefined (JsString "gb"));
      try (intros _); split; reflexivity.
Defined.




(** * Further properties of the book routes *)

Import Shelf.

(** ** What each handler can do to the world *)
Ltac close_outcome :=
  repeat split; try assumption; try discriminate;
  unfold after_failed_save, after_save, issue, with_books; simpl;
  repeat match goal with H : connected _ = _ |- _ => rewrite H end;
  reflexivity.

Section Outcomes.
Context {engine : Engine}.

(** POST /books ends in one of three ways. *)
Lemma post_books_outcome (req_body : list (string * JsValue)) (w : World) :
  (~ all_truthy req_body
   /\ post_books (JsObject req_body) w
      = (Normal {| status := 400; body := message "All fields are required" |}, w))
  \/ (all_truthy req_body
      /\ post_books (JsObject req_body) w
         = (Normal {| status := 500; body := message "Server error" |},
            after_failed_save w))
  \/ (exists f,
        all_truthy req_body
        /\ schema_accepts req_body f
        /\ connected w = true
        /\ books w !! next_ObjectId w = None
        /\ post_books (JsObject req_body) w
           = (Normal {| status := 201;
                        body := Document {| _id := next_ObjectId w; fields := f |} |},
              after_save f w)).
Proof.
  unfold all_truthy, schema_accepts. rewrite post_books_object.
  destruct (some_field_falsy _ _ _ _) eqn:Hcheck.
  { left. split; [discriminate | reflexivity]. }
  right. unfold Book_new, save, issue, with_books. run_async.
  destruct (cast_fields _ _ _ _) as [f | e]; simpl; [ | left; close_outcome ].
  destruct (required_ok f) eqn:Hreq; simpl; [ | left; close_outcome ].
  destruct (connected w) eqn:Hconn; simpl; [ | left; close_outcome ].
  destruct (books w !! next_ObjectId w) eqn:Hfresh; simpl; [ left; close_outcome | ].
  right. exists f. close_outcome.
Qed.

(** PUT /books/:id ends in one of four ways. *)
Lemma put_books_outcome (id : string) (req_body : list (string * JsValue)) (w : World) :
  (~ all_truthy req_body
   /\ put_books id (JsObject req_body) w
      = (Normal {| status := 400; body := message "All fields are required" |}, w))
  \/ (all_truthy req_body
      /\ put_books id (JsObject req_body) w
         = (Normal {| status := 500; body := message "Server error" |},
            issue (Call_findByIdAndUpdate id) w))
  \/ (exists oid,
        all_truthy req_body
        /\ castObjectId id = Normal oid
        /\ connected w = true
        /\ books w !! oid = None
        /\ put_books id (JsObject req_body) w
           = (Normal {| status := 404; body := message "Book not found" |},
              issue (Call_findByIdAndUpdate id) w))
  \/ (exists oid f old,
        all_truthy req_body
        /\ castObjectId id = Normal oid
        /\ cast_fields (prop req_body "title") (prop req_body "author")
                       (prop req_body "year") (prop req_body "genre") = Normal f
        /\ connected w = true
        /\ books w !! oid = Some old
        /\ put_books id (JsObject req_body) w
           = (Normal {| status := 200; body := Document {| _id := oid; fields := f |} |},
              with_books (<[oid := f]> (books w)) (issue (Call_findByIdAndUpdate id) w))).
Proof.
  unfold all_truthy. rewrite put_books_object.
  destruct (some_field_falsy _ _ _ _) eqn:Hcheck.
  { left. split; [discriminate | reflexivity]. }
  right. unfold Book_findByIdAndUpdate. run_async.
  destruct (castObjectId id) as [oid | e] eqn:Hid; simpl; [ | left; close_outcome ].
  destruct (cast_fields _ _ _ _) as [f | e] eqn:Hcast; simpl; [ | left; close_outcome ].
  destruct (connected w) eqn:Hconn; simpl; [ | left; close_outcome ].
  destruct (books w !! oid) as [old | ] eqn:Hold; simpl.
  - right. right. exists oid, f, old. close_outcome.
  - right. left. exists oid. close_outcome.
Qed.

(** DELETE /books/:id ends in one of three ways. *)
Lemma delete_books_outcome (id : string) (w : World) :
  delete_books id w
  = (Normal {| status := 500; body := message "Server error" |},
     issue (Call_findByIdAndDelete id) w)
  \/ (exists oid,
        castObjectId id = Normal oid
        /\ connected w = true
        /\ books w !! oid = None
        /\ delete_books id w
           = (Normal {| status := 404; body := message "Book not found" |},
              issue (Call_findByIdAndDelete id) w))
  \/ (exists oid old,
        castObjectId id = Normal oid
        /\ connected w = true
        /\ books w !! oid = Some old
        /\ delete_books id w
           = (Normal {| status := 200; body := message "Book deleted successfully" |},
              with_books (delete oid (books w)) (issue (Call_findByIdAndDelete id) w))).
Proof.
  unfold delete_books, Book_findByIdAndDelete. run_async.
  destruct (castObjectId id) as [oid | e] eqn:Hid; simpl; [ | left; close_outcome ].
  destruct (connected w) eqn:Hconn; simpl; [ | left; close_outcome ].
  destruct (books w !! oid) as [old | ] eqn:Hold; simpl.
  - right. right. exists oid, old. close_outcome.
  - right. left. exists oid. close_outcome.
Qed.

(** GET /books ends in one of two ways. *)
Lemma get_books_outcome (w : World) :
  get_books w
  = (if connected w
     then Normal {| status := 200; body := Documents (documents (books w)) |}
     else Normal {| status := 500; body := message "Server error" |},
     issue Call_find w).
Proof.
  unfold get_books, Book_find. run_async. by destruct (connected w).
Qed.

End Outcomes.

(** ** Listing *)

(** X1.  GET /books with the store reachable answers 200 with exactly the
    documents of the collection, one per id (an empty collection gives an
    empty array); with the store unreachable it answers 500; either way the
    collection is left as it was. *)
Theorem get_books_lists_the_collection (w : World) :
  (connected w = true ->
   exists listed,
     fst (get_books w) = Normal {| status := 200; body := Documents listed |}
     /\ (forall b, b ∈ listed <-> books w !! _id b = Some (fields b))
     /\ NoDup (List.map _id listed)
     /\ length listed = size (books w))
  /\ (connected w = false ->
      fst (get_books w) = Normal {| status := 500; body := message "Server error" |})
  /\ books (snd (get_books w)) = books w.
Proof.
  rewrite get_books_outcome. simpl. split; [ | split; [ | reflexivity ] ].
  - intros ->. exists (documents (books w)). split; [reflexivity |].
    split; [apply elem_of_documents |]. unfold documents. split.
    + rewrite map_map. simpl. apply (NoDup_fst_map_to_list (books w)).
    + rewrite length_map. apply length_map_to_list.
  - intros ->. reflexivity.
Qed.

(** The two-book shelf, an empty store and an unreachable one. *)
Lemma get_books_lists_the_collection_witness :
  (exists listed,
     fst (get_books two_books) = Normal {| status := 200; body := Documents listed |}
     /\ (forall b, b ∈ listed <-> books two_books !! _id b = Some (fields b))
     /\ NoDup (List.map _id listed)
     /\ length listed = size (books two_books))
  /\ fst (get_books Sample.empty_store) = Normal {| status := 200; body := Documents [] |}
  /\ fst (get_books Sample.unreachable_store)
     = Normal {| status := 500; body := message "Server error" |}.
Proof.
  split; [ | split ].
  - apply (proj1 (get_books_lists_the_collection two_books)). reflexivity.
  - destruct (proj1 (get_books_lists_the_collection Sample.empty_store) eq_refl)
      as (listed & -> & _ & _ & Hlen).
    destruct listed; [reflexivity | discriminate Hlen].
  - apply (proj1 (proj2 (get_books_lists_the_collection Sample.unreachable_store))).
    reflexivity.
Defined.

(** ** The book routes as operations on the collection *)
Section BookRoutes.
Context {engine : Engine}.

(** An id in use is found and replaced. *)
Lemma put_books_known (id : string) (oid : ObjectId)
    (req_body : list (string * JsValue)) (f old : Fields) (w : World) :
  all_truthy req_body ->
  cast_fields (prop req_body "title") (prop req_body "author")
              (prop req_body "year") (prop req_body "genre") = Normal f ->
  castObjectId id = Normal oid ->
  books w !! oid = Some old ->
  connected w = true ->
  put_books id (JsObject req_body) w
  = (Normal {| status := 200; body := Document {| _id := oid; fields := f |} |},
     with_books (<[oid := f]> (books w)) (issue (Call_findByIdAndUpdate id) w)).
Proof.
  intros Hcheck Hcast Hid Hold Hconn.
  rewrite put_books_object, Hcheck.
  unfold Book_findByIdAndUpdate. run_async.
  rewrite Hid, Hcast, Hconn, Hold. reflexivity.
Qed.

(** An id in use is found and removed. *)
Lemma delete_books_known (id : string) (oid : ObjectId) (old : Fields) (w : World) :
  castObjectId id = Normal oid ->
  books w !! oid = Some old ->
  connected w = true ->
  delete_books id w
  = (Normal {| status := 200; body := message "Book deleted successfully" |},
     with_books (delete oid (books w)) (issue (Call_findByIdAndDelete id) w)).
Proof.
  intros Hid Hold Hconn.
  unfold delete_books, Book_findByIdAndDelete. run_async.
  rewrite Hid, Hconn, Hold. reflexivity.
Qed.

(** A parsed body destructures as the object holding its four fields. *)
Lemma parsed_body_as_object (id : string) (req_body : JsValue) (w : World) :
  parsed req_body ->
  exists props,
    post_books req_body w = post_books (JsObject props) w
    /\ put_books id req_body w = put_books id (JsObject props) w.
Proof.
  unfold parsed. intros Hparsed.
  destruct req_body as [ | | b | n | s | elems | props ]; try discriminate Hparsed;
    try (exists []; split; reflexivity).
  exists props. split; reflexivity.
Qed.

(** X2.  GET /books and DELETE /books/:id never let an exception out;
    POST /books and PUT /books/:id let one out exactly when [req.body] is
    undefined or null, a TypeError thrown by the destructuring before the
    [try], with the world untouched.  Whenever a route answers, it answers
    only the statuses its annotation lists: GET 200 or 500; POST 201, 400 or
    500; PUT 200, 400, 404 or 500; DELETE 200, 404 or 500. *)
Theorem book_routes_answer_their_statuses
    (id : string) (req_body : JsValue) (w : World) :
  (exists r, fst (get_books w) = Normal r /\ (status r = 200 \/ status r = 500))
  /\ (if nullish req_body
      then post_books req_body w = (Throw TypeError, w)
      else exists r, fst (post_books req_body w) = Normal r
                     /\ (status r = 201 \/ status r = 400 \/ status r = 500))
  /\ (if nullish req_body
      then put_books id req_body w = (Throw TypeError, w)
      else exists r, fst (put_books id req_body w) = Normal r
                     /\ (status r = 200 \/ status r = 400 \/ status r = 404
                         \/ status r = 500))
  /\ (exists r, fst (delete_books id w) = Normal r
                /\ (status r = 200 \/ status r = 404 \/ status r = 500)).
Proof.
  split; [ | split; [ | split ] ].
  - rewrite get_books_outcome. simpl. destruct (connected w); eexists; split;
      try reflexivity; simpl; tauto.
  - destruct (nullish req_body) eqn:Hnull.
    { destruct req_body; try discriminate Hnull; reflexivity. }
    destruct (parsed_body_as_object id req_body w Hnull) as (props & -> & _).
    destruct (post_books_outcome props w)
      as [[_ ->] | [[_ ->] | (f & _ & _ & _ & _ & ->)]];
      eexists; (split; [reflexivity |]); simpl; tauto.
  - destruct (nullish req_body) eqn:Hnull.
    { destruct req_body; try discriminate Hnull; reflexivity. }
    destruct (parsed_body_as_object id req_body w Hnull) as (props & _ & ->).
    destruct (put_books_outcome id props w)
      as [[_ ->] | [[_ ->] | [(oid & _ & _ & _ & _ & ->)
                             | (oid & f & old & _ & _ & _ & _ & _ & ->)]]];
      eexists; (split; [reflexivity |]); simpl; tauto.
  - destruct (delete_books_outcome id w)
      as [-> | [(oid & _ & _ & _ & ->) | (oid & old & _ & _ & _ & ->)]];
      eexists; (split; [reflexivity |]); simpl; tauto.
Qed.

(** X3.  A request that is not answered with success leaves the collection
    as it was: POST /books answered other than 201, PUT /books/:id or
    DELETE /books/:id answered other than 200. *)
Theorem failed_requests_change_nothing
    (id : string) (req_body : list (string * JsValue)) (w : World) :
  (forall r, fst (post_books (JsObject req_body) w) = Normal r -> status r <> 201 ->
             books (snd (post_books (JsObject req_body) w)) = books w)
  /\ (forall r, fst (put_books id (JsObject req_body) w) = Normal r -> status r <> 200 ->
                books (snd (put_books id (JsObject req_body) w)) = books w)
  /\ (forall r, fst (delete_books id w) = Normal r -> status r <> 200 ->
                books (snd (delete_books id w)) = books w).
Proof.
  split; [ | split ]; intros r.
  - destruct (post_books_outcome req_body w)
      as [[_ ->] | [[_ ->] | (f & _ & _ & _ & _ & ->)]]; simpl;
      intros [= <-] Hs; try reflexivity. by destruct Hs.
  - destruct (put_books_outcome id req_body w)
      as [[_ ->] | [[_ ->] | [(oid & _ & _ & _ & _ & ->)
                             | (oid & f & old & _ & _ & _ & _ & _ & ->)]]]; simpl;
      intros [= <-] Hs; try reflexivity. by destruct Hs.
  - destruct (delete_books_outcome id w)
      as [-> | [(oid & _ & _ & _ & ->) | (oid & old & _ & _ & _ & ->)]]; simpl;
      intros [= <-] Hs; try reflexivity. by destruct Hs.
Qed.

(** X4.  POST /books never replaces or removes a document: whatever it
    answers, every document of the collection is still there unchanged; and
    when it answers 201 the collection holds exactly one document more. *)
Theorem post_books_only_adds (req_body : list (string * JsValue)) (w : World) :
  (forall k f, books w !! k = Some f ->
               books (snd (post_books (JsObject req_body) w)) !! k = Some f)
  /\ (forall r, fst (post_books (JsObject req_body) w) = Normal r -> status r = 201 ->
                size (books (snd (post_books (JsObject req_body) w))) = S (size (books w))).
Proof.
  destruct (post_books_outcome req_body w)
    as [[_ ->] | [[_ ->] | (f & _ & _ & _ & Hfresh & ->)]]; simpl; split;
    try (intros k f' Hk; exact Hk);
    try (intros r [= <-]; discriminate).
  - intros k f' Hk. rewrite lookup_insert_ne; [exact Hk | congruence].
  - intros r _ _. by apply map_size_insert_None.
Qed.

(** X5.  PUT /books/:id never adds or removes a document (there is no
    upsert): the ids of the collection are the same afterwards, and every
    document other than the one the id names is unchanged. *)
Theorem put_books_touches_one_document
    (id : string) (req_body : list (string * JsValue)) (w : World) :
  dom (books (snd (put_books id (JsObject req_body) w))) = dom (books w)
  /\ (forall k, castObjectId id <> Normal k ->
                books (snd (put_books id (JsObject req_body) w)) !! k = books w !! k).
Proof.
  destruct (put_books_outcome id req_body w)
    as [[_ ->] | [[_ ->] | [(oid & _ & _ & _ & _ & ->)
                           | (oid & f & old & _ & Hid & _ & _ & Hold & ->)]]]; simpl;
    split; try reflexivity.
  - apply dom_insert_lookup_L. by exists old.
  - intros k Hk. apply lookup_insert_ne. congruence.
Qed.

(** X6.  DELETE /books/:id leaves every document other than the one the id
    names unchanged; and when it answers 200 the named document was there,
    is gone, and the collection holds exactly one document fewer. *)
Theorem delete_books_removes_one_document (id : string) (w : World) :
  (forall k, castObjectId id <> Normal k ->
             books (snd (delete_books id w)) !! k = books w !! k)
  /\ (forall r, fst (delete_books id w) = Normal r -> status r = 200 ->
                exists oid,
                  castObjectId id = Normal oid
                  /\ is_Some (books w !! oid)
                  /\ books (snd (delete_books id w)) !! oid = None
                  /\ size (books w) = S (size (books (snd (delete_books id w))))).
Proof.
  destruct (delete_books_outcome id w)
    as [-> | [(oid & _ & _ & _ & ->) | (oid & old & Hid & _ & Hold & ->)]]; simpl;
    split; try reflexivity; try (intros r [= <-]; discriminate).
  - intros k Hk. apply lookup_delete_ne. congruence.
  - intros r _ _. exists oid. split; [assumption |]. split; [by exists old |].
    split; [apply lookup_delete_eq |].
    rewrite <- (insert_delete_id (books w) oid old Hold) at 1.
    apply map_size_insert_None, lookup_delete_eq.
Qed.

End BookRoutes.

(** ** How the book routes compose *)
Section Composition.
Context {engine : Engine}.

(** X7.  Creating a book and then deleting it by its assigned id brings
    the collection back to what it was: the DELETE answers 200 and the
    collection afterwards equals the one before the POST. *)
Theorem create_then_delete_restores
    (req_body : list (string * JsValue)) (w : World) (r : Response)
    (d : Book) (id : string) :
  fst (post_books (JsObject req_body) w) = Normal r ->
  body r = Document d ->
  castObjectId id = Normal (_id d) ->
  fst (delete_books id (snd (post_books (JsObject req_body) w)))
  = Normal {| status := 200; body := message "Book deleted successfully" |}
  /\ books (snd (delete_books id (snd (post_books (JsObject req_body) w)))) = books w.
Proof.
  destruct (post_books_outcome req_body w)
    as [[_ ->] | [[_ ->] | (f & _ & _ & Hconn & Hfresh & ->)]]; simpl;
    intros [= <-]; simpl; intros [= <-]; simpl. intros Hid.
  rewrite (delete_books_known id (next_ObjectId w) f (after_save f w) Hid);
    [ | apply lookup_insert_eq | exact Hconn ].
  simpl. split; [reflexivity |].
  rewrite delete_insert_eq. by apply delete_id.
Qed.

(** X8.  PUT /books/:id is idempotent: repeating a PUT that was answered
    200 gives the same answer and leaves the collection as the first PUT
    left it. *)
Theorem put_books_is_idempotent
    (id : string) (req_body : list (string * JsValue)) (w : World) (r : Response) :
  fst (put_books id (JsObject req_body) w) = Normal r ->
  status r = 200 ->
  fst (put_books id (JsObject req_body) (snd (put_books id (JsObject req_body) w))) = Normal r
  /\ books (snd (put_books id (JsObject req_body) (snd (put_books id (JsObject req_body) w))))
     = books (snd (put_books id (JsObject req_body) w)).
Proof.
  destruct (put_books_outcome id req_body w)
    as [[_ ->] | [[_ ->] | [(oid & _ & _ & _ & _ & ->)
                           | (oid & f & old & Hcheck & Hid & Hcast & Hconn & Hold & ->)]]];
    simpl; intros [= <-]; try discriminate. intros _.
  rewrite (put_books_known id oid req_body f f _ Hcheck Hcast Hid);
    [ | apply lookup_insert_eq | exact Hconn ].
  simpl. split; [reflexivity | apply insert_insert_eq].
Qed.

(** X9.  DELETE /books/:id is answered 200 once only: repeating a DELETE
    that was answered 200 is answered 404 and changes nothing. *)
Theorem delete_twice_is_not_found (id : string) (w : World) (r : Response) :
  fst (delete_books id w) = Normal r ->
  status r = 200 ->
  fst (delete_books id (snd (delete_books id w)))
  = Normal {| status := 404; body := message "Book not found" |}
  /\ books (snd (delete_books id (snd (delete_books id w))))
     = books (snd (delete_books id w)).
Proof.
  destruct (delete_books_outcome id w)
    as [-> | [(oid & _ & _ & _ & ->) | (oid & old & Hid & Hconn & Hold & ->)]];
    simpl; intros [= <-]; try discriminate. intros _.
  rewrite (delete_books_unknown id oid _ Hid);
    [ | apply lookup_delete_eq | exact Hconn ].
  split; reflexivity.
Qed.

(** X10.  POST /books is not idempotent: two requests answered 201 one
    after the other, even with the same body, create two documents under
    different ids, and GET /books lists both. *)
Theorem two_creates_make_two_documents
    (body1 body2 : list (string * JsValue)) (w : World)
    (r1 r2 : Response) (d1 d2 : Book) :
  fst (post_books (JsObject body1) w) = Normal r1 ->
  body r1 = Document d1 ->
  fst (post_books (JsObject body2) (snd (post_books (JsObject body1) w))) = Normal r2 ->
  body r2 = Document d2 ->
  _id d1 <> _id d2
  /\ exists listed,
       fst (get_books (snd (post_books (JsObject body2) (snd (post_books (JsObject body1) w)))))
       = Normal {| status := 200; body := Documents listed |}
       /\ d1 ∈ listed /\ d2 ∈ listed.
Proof.
  destruct (post_books_outcome body1 w)
    as [[_ ->] | [[_ ->] | (f1 & _ & _ & Hconn & Hfresh1 & ->)]]; simpl;
    intros [= <-]; simpl; intros [= <-].
  destruct (post_books_outcome body2 (after_save f1 w))
    as [[_ ->] | [[_ ->] | (f2 & _ & _ & _ & Hfresh2 & ->)]]; simpl;
    intros [= <-]; simpl; intros [= <-]. simpl in *.
  assert (next_ObjectId w <> N.succ (next_ObjectId w)) as Hne.
  { intros Heq. rewrite <- Heq, lookup_insert_eq in Hfresh2. discriminate. }
  split; [exact Hne |].
  rewrite get_books_outcome. simpl. rewrite Hconn. eexists. split; [reflexivity |].
  split; apply elem_of_documents; simpl.
  - rewrite lookup_insert_ne by congruence. apply lookup_insert_eq.
  - apply lookup_insert_eq.
Qed.


(** X12.  The document a book route answers with is the document stored:
    after a POST or a PUT whose response carries a document, the collection
    holds exactly those fields under that id. *)
Theorem answered_document_is_stored
    (id : string) (req_body : list (string * JsValue)) (w : World) :
  (forall r d, fst (post_books (JsObject req_body) w) = Normal r -> body r = Document d ->
               books (snd (post_books (JsObject req_body) w)) !! _id d = Some (fields d))
  /\ (forall r d, fst (put_books id (JsObject req_body) w) = Normal r -> body r = Document d ->
                  books (snd (put_books id (JsObject req_body) w)) !! _id d = Some (fields d)).
Proof.
  split; intros r d.
  - destruct (post_books_outcome req_body w)
      as [[_ ->] | [[_ ->] | (f & _ & _ & _ & _ & ->)]]; simpl;
      intros [= <-]; simpl; intros [= <-]. simpl. apply lookup_insert_eq.
  - destruct (put_books_outcome id req_body w)
      as [[_ ->] | [[_ ->] | [(oid & _ & _ & _ & _ & ->)
                             | (oid & f & old & _ & _ & _ & _ & _ & ->)]]]; simpl;
      intros [= <-]; simpl; intros [= <-]. simpl. apply lookup_insert_eq.
Qed.

End Composition.

(** * Further properties of the news route *)
Section NewsRoute.
Context {engine : Engine}.

(** The handler is a function of the request and of the network alone. *)
Lemma get_news_pure (cfg : Config) (fetch : string -> Completion FetchResponse)
    (req_query : list (string * JsValue)) :
  exists c, forall w, get_news cfg fetch req_query w = (c, w).
Proof.
  unfold get_news. run_async.
  destruct (fetch _) as [response | e]; simpl; [ | eauto ].
  destruct (fetch_json response) as [data | e]; simpl; [ | eauto ].
  destruct (ok response); [ | eauto ].
  destruct (bind (Get data "articles") _) as [articles | e]; simpl; [ | eauto ].
  destruct (Get data "totalResults") as [total | e]; simpl; eauto.
Qed.

Lemma map_elements_normal (items out : list JsValue) :
  map_elements reshape items = Normal out ->
  Forall (fun article => has_source article = true) items.
Proof.
  revert out. induction items as [ | article rest IH ]; intros out; simpl.
  - constructor.
  - destruct (has_source article) eqn:Hs.
    + destruct (reshape article); simpl; [ | discriminate ].
      destruct (map_elements reshape rest) as [rest' | e] eqn:Hrest; simpl;
        [ | discriminate ].
      intros _. constructor; [exact Hs | by eapply IH].
    + rewrite (without_source_reshape article Hs). discriminate.
Qed.

(** X13.  GET /news never touches the document store: it leaves the world
    exactly as it was (no model call, no change to the collection), and its
    response is the same whatever the store holds. *)
Theorem get_news_leaves_the_store_alone
    (cfg : Config) (fetch : string -> Completion FetchResponse)
    (req_query : list (string * JsValue)) (w w' : World) :
  snd (get_news cfg fetch req_query w) = w
  /\ fst (get_news cfg fetch req_query w) = fst (get_news cfg fetch req_query w').
Proof.
  destruct (get_news_pure cfg fetch req_query) as [c Hc].
  rewrite (Hc w), (Hc w'). split; reflexivity.
Qed.

(** X14.  GET /news answers 200 only when the upstream call succeeded in
    full: [fetch] resolved with a 2xx response, its body was JSON, the
    body's [articles] is an array, and every article of it has a source.
    There are no partial results. *)
Theorem get_news_200_only_when_well_formed
    (cfg : Config) (fetch : string -> Completion FetchResponse)
    (req_query : list (string * JsValue)) (w : World) (r : Response) :
  fst (get_news cfg fetch req_query w) = Normal r ->
  status r = 200 ->
  exists response data items,
    fetch (requested cfg req_query) = Normal response
    /\ ok response = true
    /\ fetch_json response = Normal data
    /\ Get data "articles" = Normal (JsArray items)
    /\ Forall (fun article => has_source article = true) items.
Proof.
  unfold requested, get_news. run_async.
  destruct (fetch _) as [response | e]; simpl.
  2: { intros [= <-]. discriminate. }
  destruct (fetch_json response) as [data | e] eqn:Hjson; simpl.
  2: { intros [= <-]. discriminate. }
  destruct (ok response) eqn:Hok.
  2: { intros [= <-]. discriminate. }
  destruct (Get data "articles") as [v | e] eqn:Harts; simpl.
  2: { intros [= <-]. discriminate. }
  destruct v as [ | | b | n | s | items | props ]; simpl;
    try (intros [= <-]; discriminate).
  destruct (map_elements reshape items) as [out | e] eqn:Hout; simpl.
  2: { intros [= <-]. discriminate. }
  intros _ _. exists response, data, items.
  repeat split; try assumption; try reflexivity. by eapply map_elements_normal.
Qed.

End NewsRoute.

(** ** The further properties on the sample data *)

(** A POST to an unreachable store, a PUT of an unknown id and a DELETE of
    an id that is no ObjectId. *)
Lemma failed_requests_change_nothing_witness :
  books (snd (post_books (engine := idle_engine)
                (JsObject (Sample.dune (JsNumber (number_of_Z 1965)))) Sample.unreachable_store))
  = books Sample.unreachable_store
  /\ books (snd (put_books (engine := idle_engine) id2 (JsObject Sample.messiah) Sample.dune_store))
     = books Sample.dune_store
  /\ books (snd (delete_books "abc" two_books)) = books two_books.
Proof.
  split; [ | split ].
  - apply (proj1 (failed_requests_change_nothing (engine := idle_engine) Sample.id1
                    (Sample.dune (JsNumber (number_of_Z 1965)))
                    Sample.unreachable_store)
             {| status := 500; body := message "Server error" |});
      [reflexivity | discriminate].
  - apply (proj1 (proj2 (failed_requests_change_nothing (engine := idle_engine) id2
                           Sample.messiah Sample.dune_store))
             {| status := 404; body := message "Book not found" |});
      [reflexivity | discriminate].
  - apply (proj2 (proj2 (failed_requests_change_nothing (engine := idle_engine) "abc"
                           [] two_books))
             {| status := 500; body := message "Server error" |});
      [reflexivity | discriminate].
Defined.

(** Dune Messiah posted to the store that holds Dune. *)
Lemma post_books_only_adds_witness :
  books (snd (post_books (engine := idle_engine) (JsObject Sample.messiah) Sample.dune_store)) !! 1%N
  = Some Sample.dune_fields
  /\ size (books (snd (post_books (engine := idle_engine) (JsObject Sample.messiah)
                         Sample.dune_store)))
     = S (size (books Sample.dune_store)).
Proof.
  destruct (post_books_only_adds (engine := idle_engine) Sample.messiah Sample.dune_store)
    as [Hkeep Hgrow].
  split.
  - apply Hkeep. reflexivity.
  - apply (Hgrow {| status := 201;
                    body := Document {| _id := 2%N; fields := Sample.messiah_fields |} |});
      reflexivity.
Defined.

(** Book 1 of the shelf replaced: book 2 is as it was. *)
Lemma put_books_touches_one_document_witness :
  books (snd (put_books (engine := idle_engine) Sample.id1 (JsObject Sample.messiah) two_books)) !! 2%N
  = books two_books !! 2%N.
Proof.
  apply (proj2 (put_books_touches_one_document (engine := idle_engine) Sample.id1
                  Sample.messiah two_books)).
  discriminate.
Defined.

(** Book 1 of the shelf deleted: book 2 is as it was, book 1 is gone. *)
Lemma delete_books_removes_one_document_witness :
  books (snd (delete_books Sample.id1 two_books)) !! 2%N = books two_books !! 2%N
  /\ exists oid,
       castObjectId Sample.id1 = Normal oid
       /\ is_Some (books two_books !! oid)
       /\ books (snd (delete_books Sample.id1 two_books)) !! oid = None
       /\ size (books two_books) = S (size (books (snd (delete_books Sample.id1 two_books)))).
Proof.
  destruct (delete_books_removes_one_document Sample.id1 two_books) as [Hframe Hgone].
  split.
  - apply Hframe. discriminate.
  - apply (Hgone {| status := 200; body := message "Book deleted successfully" |});
      reflexivity.
Defined.

(** Dune created on the empty store and deleted again. *)
Lemma create_then_delete_restores_witness :
  fst (delete_books Sample.id1
         (snd (post_books (engine := idle_engine)
                 (JsObject (Sample.dune (JsNumber (number_of_Z 1965)))) Sample.empty_store)))
  = Normal {| status := 200; body := message "Book deleted successfully" |}
  /\ books (snd (delete_books Sample.id1
                   (snd (post_books (engine := idle_engine)
                           (JsObject (Sample.dune (JsNumber (number_of_Z 1965))))
                           Sample.empty_store))))
     = books Sample.empty_store.
Proof.
  apply (create_then_delete_restores (engine := idle_engine)
           (Sample.dune (JsNumber (number_of_Z 1965))) Sample.empty_store
           {| status := 201;
              body := Document {| _id := 1%N; fields := Sample.dune_fields |} |}
           {| _id := 1%N; fields := Sample.dune_fields |} Sample.id1);
    reflexivity.
Defined.

(** Dune replaced by Dune Messiah, twice. *)
Lemma put_books_is_idempotent_witness :
  fst (put_books (engine := idle_engine) Sample.id1 (JsObject Sample.messiah)
         (snd (put_books (engine := idle_engine) Sample.id1 (JsObject Sample.messiah)
                 Sample.dune_store)))
  = Normal {| status := 200;
              body := Document {| _id := 1%N; fields := Sample.messiah_fields |} |}
  /\ books (snd (put_books (engine := idle_engine) Sample.id1 (JsObject Sample.messiah)
                   (snd (put_books (engine := idle_engine) Sample.id1 (JsObject Sample.messiah)
                           Sample.dune_store))))
     = books (snd (put_books (engine := idle_engine) Sample.id1 (JsObject Sample.messiah)
                     Sample.dune_store)).
Proof.
  apply (put_books_is_idempotent (engine := idle_engine) Sample.id1 Sample.messiah
           Sample.dune_store
           {| status := 200;
              body := Document {| _id := 1%N; fields := Sample.messiah_fields |} |});
    reflexivity.
Defined.

(** Dune deleted, twice. *)
Lemma delete_twice_is_not_found_witness :
  fst (delete_books Sample.id1 (snd (delete_books Sample.id1 Sample.dune_store)))
  = Normal {| status := 404; body := message "Book not found" |}
  /\ books (snd (delete_books Sample.id1 (snd (delete_books Sample.id1 Sample.dune_store))))
     = books (snd (delete_books Sample.id1 Sample.dune_store)).
Proof.
  apply (delete_twice_is_not_found Sample.id1 Sample.dune_store
           {| status := 200; body := message "Book deleted successfully" |});
    reflexivity.
Defined.

(** The same Dune posted twice to the empty store. *)
Lemma two_creates_make_two_documents_witness :
  1%N <> 2%N
  /\ exists listed,
       fst (get_books
              (snd (post_books (engine := idle_engine)
                      (JsObject (Sample.dune (JsNumber (number_of_Z 1965))))
                      (snd (post_books (engine := idle_engine)
                              (JsObject (Sample.dune (JsNumber (number_of_Z 1965))))
                              Sample.empty_store)))))
       = Normal {| status := 200; body := Documents listed |}
       /\ {| _id := 1%N; fields := Sample.dune_fields |} ∈ listed
       /\ {| _id := 2%N; fields := Sample.dune_fields |} ∈ listed.
Proof.
  apply (two_creates_make_two_documents (engine := idle_engine)
           (Sample.dune (JsNumber (number_of_Z 1965)))
           (Sample.dune (JsNumber (number_of_Z 1965))) Sample.empty_store
           {| status := 201;
              body := Document {| _id := 1%N; fields := Sample.dune_fields |} |}
           {| status := 201;
              body := Document {| _id := 2%N; fields := Sample.dune_fields |} |}
           {| _id := 1%N; fields := Sample.dune_fields |}
           {| _id := 2%N; fields := Sample.dune_fields |});
    reflexivity.
Defined.


(** The text 1969 for the year: the answer and the store both hold the
    number. *)
Lemma answered_document_is_stored_witness :
  books (snd (post_books (engine := idle_engine) (JsObject (Sample.dune (JsString "1969")))
                Sample.empty_store)) !! 1%N
  = Some {| title := "Dune"; author := "Herbert"; year := number_of_Z 1969;
            genre := "SciFi" |}
  /\ books (snd (put_books (engine := idle_engine) Sample.id1
                   (JsObject (Sample.dune (JsString "1969"))) Sample.dune_store)) !! 1%N
     = Some {| title := "Dune"; author := "Herbert"; year := number_of_Z 1969;
               genre := "SciFi" |}.
Proof.
  destruct (answered_document_is_stored (engine := idle_engine) Sample.id1
              (Sample.dune (JsString "1969")) Sample.empty_store) as [Hpost _].
  destruct (answered_document_is_stored (engine := idle_engine) Sample.id1
              (Sample.dune (JsString "1969")) Sample.dune_store) as [_ Hput].
  split.
  - apply (Hpost {| status := 201;
                    body := Document
                              {| _id := 1%N;
                                 fields := {| title := "Dune"; author := "Herbert";
                                              year := number_of_Z 1969;
                                              genre := "SciFi" |} |} |}
             {| _id := 1%N;
                fields := {| title := "Dune"; author := "Herbert";
                             year := number_of_Z 1969; genre := "SciFi" |} |});
      reflexivity.
  - apply (Hput {| status := 200;
                   body := Document
                             {| _id := 1%N;
                                fields := {| title := "Dune"; author := "Herbert";
                                             year := number_of_Z 1969;
                                             genre := "SciFi" |} |} |}
             {| _id := 1%N;
                fields := {| title := "Dune"; author := "Herbert";
                             year := number_of_Z 1969; genre := "SciFi" |} |});
      reflexivity.
Defined.

(** One article of the provider's usual shape, answered 200. *)
Lemma get_news_200_only_when_well_formed_witness :
  exists response data items,
    Sample.answering 200 Sample.one_article
      (requested (engine := idle_engine) (Sample.config (JsString "k3y")) [])
    = Normal response
    /\ ok response = true
    /\ fetch_json response = Normal data
    /\ Get data "articles" = Normal (JsArray items)
    /\ Forall (fun article => has_source article = true) items.
Proof.
  destruct (get_news_total (engine := idle_engine) (Sample.config (JsString "k3y"))
              (Sample.answering 200 Sample.one_article) [] Sample.empty_store)
    as (r & Hr & _).
  apply (get_news_200_only_when_well_formed (engine := idle_engine)
           (Sample.config (JsString "k3y")) (Sample.answering 200 Sample.one_article) []
           Sample.empty_store r).
  - rewrite Hr. reflexivity.
  - vm_compute in Hr. injection Hr as <-. reflexivity.
Defined.

(** One article of the provider's usual shape: the body is the text of the
    reshaped object. *)
Lemma get_news_sends_text_witness :
  exists r response data items totalResults articles text,
    fst (get_news (engine := idle_engine) (Sample.config (JsString "k3y"))
           (Sample.answering 200 Sample.one_article) [] Sample.empty_store)
    = Normal r
    /\ Sample.answering 200 Sample.one_article
         (requested (engine := idle_engine) (Sample.config (JsString "k3y")) [])
       = Normal response
    /\ fetch_json response = Normal data
    /\ Get data "articles" = Normal (JsArray items)
    /\ Get data "totalResults" = Normal totalResults
    /\ Forall2 reshaped items articles
    /\ JSON_stringify (engine := idle_engine)
         (JsObject [("totalResults", totalResults); ("articles", JsArray articles)]) 2
       = JsString text
    /\ body r = Json (JsString text).
Proof.
  destruct (get_news_total (engine := idle_engine) (Sample.config (JsString "k3y"))
              (Sample.answering 200 Sample.one_article) [] Sample.empty_store)
    as (r & Hr & _).
  exists r.
  destruct (get_news_sends_text (engine := idle_engine)
              (Sample.config (JsString "k3y")) (Sample.answering 200 Sample.one_article) []
              Sample.empty_store r)
    as (response & data & items & total & articles & text & H).
  - rewrite Hr. reflexivity.
  - vm_compute in Hr. injection Hr as <-. reflexivity.
  - exists response, data, items, total, articles, text.
    split; [rewrite Hr; reflexivity | exact H].
Defined.
